(** * Universal sales dashboard (dashboard.py)

    A shallow embedding of the script's pipeline: file ingestion with
    delimiter detection, fuzzy column resolution ([find_best_column]),
    date and numeric cleaning, the sidebar and date filters, the
    sales-over-time aggregate and the CSV export.

    The script is glue around three packages (the [str] builtins,
    [rapidfuzz] and [pandas]) and the Streamlit runtime.  What the
    packages compute is kept abstract in the classes [Builtins],
    [RapidFuzz] and [Pandas]; the general theorems hold for every
    implementation of them.  Reference instances (Latin-1 lower-casing,
    the LCS similarity ratio, a decimal-literal parser, an ISO date
    parser, a line splitter) make every definition executable on concrete
    inputs. *)

From Stdlib Require Import List String Ascii Bool Arith NArith ZArith QArith Qpower Lia Lqa.
From Stdlib Require Import Sorting.Sorted Permutation.
Import ListNotations.

Set Implicit Arguments.

(* ================================================================== *)
(** * Part I: definitions                                              *)
(* ================================================================== *)

(** ** Exceptions and fallible computations *)

(** The Python exceptions the modelled code can raise. *)
Inductive exn : Type :=
| ValueError
| KeyError
| TypeError
| AttributeError
| DecodeFailure.

(** A computation either returns a value or raises. *)
Inductive result (A : Type) : Type :=
| Ok (a : A)
| Raise (e : exn).

Arguments Ok {A} a.
Arguments Raise {A} e.

Definition bind {A B : Type} (m : result A) (k : A -> result B) : result B :=
  match m with
  | Ok a => k a
  | Raise e => Raise e
  end.

Declare Scope result_scope.
Delimit Scope result_scope with result.
Notation "x <- m ;; k" := (bind m (fun x => k))
  (at level 61, m at next level, right associativity) : result_scope.
Local Open Scope result_scope.

(** ** Strings

    A [string] is a sequence of Latin-1 code points, one [ascii] per
    character: this is what [encoding='ISO-8859-1'] produces. *)

Definition char_code (c : ascii) : N := N_of_ascii c.

(** [s.replace(c, '')] for a one-character pattern: every occurrence of
    [c] is deleted. *)
Fixpoint remove_char (c : ascii) (s : string) : string :=
  match s with
  | EmptyString => EmptyString
  | String x s' =>
      if Ascii.eqb x c then remove_char c s' else String x (remove_char c s')
  end.

(** [str.isspace] on one Latin-1 character: TAB..CR, FS..US, space, NEL
    and the no-break space. *)
Definition py_isspace (c : ascii) : bool :=
  let n := char_code c in
  ((9 <=? n) && (n <=? 13) || (28 <=? n) && (n <=? 32)
   || (n =? 133) || (n =? 160))%N.

Fixpoint string_exists (p : ascii -> bool) (s : string) : bool :=
  match s with
  | EmptyString => false
  | String x s' => p x || string_exists p s'
  end.


Fixpoint lstrip (s : string) : string :=
  match s with
  | EmptyString => EmptyString
  | String x s' => if py_isspace x then lstrip s' else s
  end.

(** [rstrip] drops the trailing run of whitespace: a character is kept
    unless it and everything after it is whitespace. *)
Fixpoint rstrip (s : string) : string :=
  match s with
  | EmptyString => EmptyString
  | String x s' =>
      match rstrip s' with
      | EmptyString => if py_isspace x then EmptyString else String x EmptyString
      | r => String x r
      end
  end.

(** [s.strip()] *)
Definition strip (s : string) : string := rstrip (lstrip s).

Fixpoint rev_string_onto (s acc : string) : string :=
  match s with
  | EmptyString => acc
  | String x s' => rev_string_onto s' (String x acc)
  end.

(** [s.endswith(suffix)] *)
Definition endswith (s suffix : string) : bool :=
  String.prefix (rev_string_onto suffix EmptyString) (rev_string_onto s EmptyString).

(** [s.endswith((a, b, ...))]: true when one of the suffixes matches. *)
Definition endswith_any (s : string) (suffixes : list string) : bool :=
  existsb (endswith s) suffixes.

(** ** Python's [max]

    [max] keeps the first item and replaces it only by a strictly greater
    one, so the first maximal item wins; an empty argument raises
    [ValueError]. *)

Definition Qgt_bool (a b : Q) : bool := negb (Qle_bool a b).

Fixpoint max_loop {A : Type} (key : A -> Q) (best : A) (l : list A) : A :=
  match l with
  | [] => best
  | x :: l' => max_loop key (if Qgt_bool (key x) (key best) then x else best) l'
  end.

Definition py_max_key {A : Type} (key : A -> Q) (l : list A) : result A :=
  match l with
  | [] => Raise ValueError
  | x :: l' => Ok (max_loop key x l')
  end.

Definition py_max (l : list Q) : result Q := py_max_key (fun q => q) l.

(** ** Insertion-ordered dictionaries

    [matches] is a [dict] from header to score.  Assigning an existing
    key overwrites the value in place; a new key goes to the end. *)

Definition dict (V : Type) : Type := list (string * V).

Fixpoint dict_set {V : Type} (d : dict V) (k : string) (v : V) : dict V :=
  match d with
  | [] => [(k, v)]
  | (k', v') :: d' =>
      if String.eqb k' k then (k', v) :: d' else (k', v') :: dict_set d' k v
  end.

Fixpoint dict_get {V : Type} (d : dict V) (k : string) : option V :=
  match d with
  | [] => None
  | (k', v') :: d' => if String.eqb k' k then Some v' else dict_get d' k
  end.

(** [d[k]] raises [KeyError] on a missing key. *)
Definition dict_item {V : Type} (d : dict V) (k : string) : result V :=
  match dict_get d k with
  | Some v => Ok v
  | None => Raise KeyError
  end.

(** ** Column resolver *)

(** [str.lower] of the builtins. *)
Class Builtins : Type := {
  lower : string -> string
}.

(** [rapidfuzz.fuzz.ratio]: a similarity in [0, 100], taken at its exact
    rational value. *)
Class RapidFuzz : Type := {
  ratio : string -> string -> Q
}.

Section Resolver.
Context {B : Builtins} {F : RapidFuzz}.

(** [fuzz.ratio(col.lower(), key.lower())]: the similarity of a header
    and a candidate name, case normalised. *)
Definition similarity (col key : string) : Q :=
  ratio (lower col) (lower key).

(** [max([fuzz.ratio(col.lower(), key.lower()) for key in possible_names])] *)
Definition column_score (possible_names : list string) (col : string) : result Q :=
  py_max (map (similarity col) possible_names).

(** The [for col in column_list] loop filling [matches]. *)
Fixpoint fill_matches (possible_names column_list : list string)
    (matches : dict Q) : result (dict Q) :=
  match column_list with
  | [] => Ok matches
  | col :: rest =>
      score <- column_score possible_names col ;;
      fill_matches possible_names rest (dict_set matches col score)
  end.

(** [find_best_column(possible_names, column_list)].

    [max(matches, key=matches.get)] walks the keys of [matches] in
    insertion order and compares the values stored under them, which is
    the walk over the items made here. *)
Definition find_best_column (possible_names column_list : list string)
    : result (option string) :=
  matches <- fill_matches possible_names column_list [] ;;
  best <- py_max_key snd matches ;;
  let best_match := fst best in
  score <- dict_item matches best_match ;;
  Ok (if Qgt_bool score 60 then Some best_match else None).

(** Every entry of [matches] holds the score of its header: the
    invariant of the loop. *)
Definition scored (C : list string) (d : dict Q) : Prop :=
  forall k v, In (k, v) d -> column_score C k = Ok v.

End Resolver.

(** *** Reference instances *)

(** Lower-casing of Latin-1: [A-Z] and the accented capitals
    [0xC0..0xDE] other than the multiplication sign [0xD7]. *)
Definition lower_char (c : ascii) : ascii :=
  let n := char_code c in
  if ((65 <=? n) && (n <=? 90)
      || (192 <=? n) && (n <=? 222) && negb (n =? 215))%N
  then ascii_of_N (n + 32) else c.

Fixpoint latin1_lower (s : string) : string :=
  match s with
  | EmptyString => EmptyString
  | String x s' => String (lower_char x) (latin1_lower s')
  end.

(** Length of a longest common subsequence. *)
Fixpoint lcs (a b : string) : nat :=
  match a with
  | EmptyString => 0%nat
  | String x a' =>
      (fix inner (b : string) : nat :=
         match b with
         | EmptyString => 0%nat
         | String y b' =>
             if Ascii.eqb x y then S (lcs a' b')
             else Nat.max (lcs a' b) (inner b')
         end) b
  end.

(** The normalised Indel similarity: [100 * 2 * lcs / (len a + len b)],
    and [100] for two empty strings. *)
Definition indel_ratio (a b : string) : Q :=
  let total := (String.length a + String.length b)%nat in
  match total with
  | O => 100
  | S _ => (Z.of_nat (200 * lcs a b)) # (Pos.of_nat total)
  end.

#[export] Instance latin1_builtins : Builtins := {| lower := latin1_lower |}.
#[export] Instance indel_rapidfuzz : RapidFuzz := {| ratio := indel_ratio |}.

(** ** Tables *)

(** A [pandas.Timestamp], by its calendar fields; [tod] counts the
    nanoseconds since midnight.  Timestamps compare chronologically,
    which on the fields is the lexicographic order. *)
Record Timestamp : Type := mkTimestamp {
  year : Z;
  month : Z;
  day : Z;
  tod : Z
}.

Definition lex (c : comparison) (k : comparison) : comparison :=
  match c with
  | Eq => k
  | _ => c
  end.

Definition ts_compare (a b : Timestamp) : comparison :=
  lex (year a ?= year b)%Z
   (lex (month a ?= month b)%Z
     (lex (day a ?= day b)%Z (tod a ?= tod b)%Z)).

Definition ts_leb (a b : Timestamp) : bool :=
  match ts_compare a b with
  | Gt => false
  | _ => true
  end.

Definition ts_eqb (a b : Timestamp) : bool :=
  match ts_compare a b with
  | Eq => true
  | _ => false
  end.


(** A cell of a table: text, a number (at its exact value), a missing
    number [NaN], a timestamp, or a missing timestamp [NaT]. *)
Inductive cell : Type :=
| CStr (s : string)
| CNum (x : Q)
| CNaN
| CDate (t : Timestamp)
| CNaT.

(** Equality of values as [Series.isin] tests it; a missing value is
    found in a list that holds a missing value. *)
Definition cell_eqb (a b : cell) : bool :=
  match a, b with
  | CStr s, CStr s' => String.eqb s s'
  | CNum x, CNum x' => Qeq_bool x x'
  | CNaN, CNaN => true
  | CDate t, CDate t' => ts_eqb t t'
  | CNaT, CNaT => true
  | _, _ => false
  end.

(** A [DataFrame]: the ordered headers and the rows, each row holding
    its cells in header order. *)
Record DataFrame : Type := mkDataFrame {
  columns : list string;
  rows : list (list cell)
}.

(** [df.shape[1]] *)
Definition ncols (df : DataFrame) : nat := List.length (columns df).

Fixpoint column_index (c : string) (cols : list string) : option nat :=
  match cols with
  | [] => None
  | c' :: rest =>
      if String.eqb c' c then Some O
      else option_map S (column_index c rest)
  end.

(** The cell of a row at a position; a short row reads as missing. *)
Definition cell_at (i : nat) (r : list cell) : cell := nth i r CNaN.

(** [df[c]]: the series of column [c], [KeyError] when there is no such
    header. *)
Definition get_column (df : DataFrame) (c : string) : result (list cell) :=
  match column_index c (columns df) with
  | Some i => Ok (map (cell_at i) (rows df))
  | None => Raise KeyError
  end.

Fixpoint set_nth (i : nat) (v : cell) (r : list cell) : list cell :=
  match i, r with
  | O, _ :: r' => v :: r'
  | O, [] => [v]
  | S i', x :: r' => x :: set_nth i' v r'
  | S i', [] => CNaN :: set_nth i' v []
  end.

Fixpoint zip_with {A B C : Type} (f : A -> B -> C) (l : list A) (l' : list B)
    : list C :=
  match l, l' with
  | a :: t, b :: t' => f a b :: zip_with f t t'
  | _, _ => []
  end.

(** [df[c] = series]: an existing column is overwritten in place, a new
    one is added after the last column. *)
Definition set_column (df : DataFrame) (c : string) (series : list cell)
    : DataFrame :=
  match column_index c (columns df) with
  | Some i =>
      {| columns := columns df;
         rows := zip_with (fun r v => set_nth i v r) (rows df) series |}
  | None =>
      let n := ncols df in
      {| columns := columns df ++ [c];
         rows := zip_with (fun r v => set_nth n v r) (rows df) series |}
  end.

(** [df[mask]]: the rows whose mask entry is true. *)
Fixpoint select_rows (rs : list (list cell)) (mask : list bool)
    : list (list cell) :=
  match rs, mask with
  | r :: rs', b :: mask' =>
      if b then r :: select_rows rs' mask' else select_rows rs' mask'
  | _, _ => []
  end.

Definition boolean_index (df : DataFrame) (mask : list bool) : DataFrame :=
  {| columns := columns df; rows := select_rows (rows df) mask |}.

(** [series.isin(values)] *)
Definition isin (series : list cell) (values : list cell) : list bool :=
  map (fun c => existsb (cell_eqb c) values) series.

(** [series.unique()]: the distinct values by first appearance. *)
Fixpoint unique (series : list cell) : list cell :=
  match series with
  | [] => []
  | c :: rest =>
      c :: filter (fun c' => negb (cell_eqb c' c)) (unique rest)
  end.

(** An uploaded file. *)
Record UploadedFile : Type := mkUpload {
  name : string;
  content : string
}.

(** What the script uses of [pandas]: the parsers behind [to_numeric] and
    [to_datetime], the text [astype(str)] gives a number or a timestamp,
    and the two file decoders. *)
Class Pandas : Type := {
  (** the number a text denotes; [None] when it denotes none or NaN *)
  parse_number : string -> option Q;
  (** the timestamp a text denotes; [None] when it is no date *)
  parse_datetime : string -> option Timestamp;
  (** a number read as an offset from the epoch *)
  datetime_of_number : Q -> option Timestamp;
  str_of_number : Q -> string;
  str_of_timestamp : Timestamp -> string;
  (** [pd.read_csv(fl, encoding='ISO-8859-1', delimiter=d)] *)
  read_csv : UploadedFile -> ascii -> result DataFrame;
  (** [pd.read_excel(fl)] *)
  read_excel : UploadedFile -> result DataFrame
}.

(** ** Bindings *)

(** The truth value of a binding in [if col:]: [None] and the empty
    string are false. *)
Definition truthy (col : option string) : bool :=
  match col with
  | Some c => negb (String.eqb c EmptyString)
  | None => false
  end.

(** The nine roles and the header bound to each. *)
Record Binding : Type := mkBinding {
  date_col : option string;
  sales_col : option string;
  profit_col : option string;
  product_col : option string;
  region_col : option string;
  state_col : option string;
  city_col : option string;
  retailer_col : option string;
  quantity_col : option string
}.

Fixpoint mapM {A B : Type} (f : A -> result B) (l : list A) : result (list B) :=
  match l with
  | [] => Ok []
  | a :: l' =>
      b <- f a ;;
      bs <- mapM f l' ;;
      Ok (b :: bs)
  end.

Section Cleaner.
Context {P : Pandas}.

(** ** Data cleaning *)

(** [pd.to_datetime(series, errors='coerce')], cell by cell: what does
    not parse becomes [NaT]. *)
Definition to_datetime_coerce (c : cell) : cell :=
  match c with
  | CStr s =>
      match parse_datetime s with
      | Some t => CDate t
      | None => CNaT
      end
  | CNum x =>
      match datetime_of_number x with
      | Some t => CDate t
      | None => CNaT
      end
  | CDate t => CDate t
  | CNaN | CNaT => CNaT
  end.

(** [series.astype(str)] *)
Definition astype_str (c : cell) : string :=
  match c with
  | CStr s => s
  | CNum x => str_of_number x
  | CNaN => "nan"
  | CDate t => str_of_timestamp t
  | CNaT => "NaT"
  end.

(** [pd.to_numeric(series, errors='coerce')] on a text series. *)
Definition to_numeric_coerce (s : string) : cell :=
  match parse_number s with
  | Some x => CNum x
  | None => CNaN
  end.

(** [series.fillna(0)] *)
Definition fillna_zero (c : cell) : cell :=
  match c with
  | CNaN | CNaT => CNum 0
  | _ => c
  end.

(** The text left of a cell by
    [.astype(str).str.replace(',', '').str.replace('$', '').str.strip()]. *)
Definition numeric_text (c : cell) : string :=
  strip (remove_char "$" (remove_char "," (astype_str c))).

(** One cell through the two assignments of the numeric loop. *)
Definition clean_numeric_cell (c : cell) : cell :=
  fillna_zero (to_numeric_coerce (numeric_text c)).

(** [df[c] = f(df[c])] *)
Definition update_column (f : cell -> cell) (c : string) (df : DataFrame)
    : result DataFrame :=
  series <- get_column df c ;;
  Ok (set_column df c (map f series)).

(** [if col: df[col] = f(df[col])] *)
Definition update_if_bound (f : cell -> cell) (col : option string)
    (df : DataFrame) : result DataFrame :=
  match col with
  | Some c => if truthy col then update_column f c df else Ok df
  | None => Ok df
  end.

(** [if date_col: df[date_col] = pd.to_datetime(df[date_col], errors='coerce')] *)
Definition clean_dates (date_col : option string) (df : DataFrame)
    : result DataFrame :=
  update_if_bound to_datetime_coerce date_col df.

(** The [for col in numeric_cols] loop. *)
Fixpoint clean_numeric (numeric_cols : list (option string)) (df : DataFrame)
    : result DataFrame :=
  match numeric_cols with
  | [] => Ok df
  | col :: rest =>
      df' <- update_if_bound clean_numeric_cell col df ;;
      clean_numeric rest df'
  end.

Definition clean (b : Binding) (df : DataFrame) : result DataFrame :=
  df1 <- clean_dates (date_col b) df ;;
  clean_numeric [sales_col b; profit_col b; quantity_col b] df1.

(** ** Filters *)

Definition nonempty {A : Type} (l : list A) : bool :=
  match l with
  | [] => false
  | _ :: _ => true
  end.

(** [if selection and col: df = df[df[col].isin(selection)]] *)
Definition filter_isin (selection : list cell) (col : option string)
    (df : DataFrame) : result DataFrame :=
  match col with
  | Some c =>
      if nonempty selection && truthy col then
        series <- get_column df c ;;
        Ok (boolean_index df (isin series selection))
      else Ok df
  | None => Ok df
  end.

(** The three sidebar filters, applied to a copy of the cleaned table. *)
Definition dimension_filter (b : Binding) (region state city : list cell)
    (df : DataFrame) : result DataFrame :=
  df1 <- filter_isin region (region_col b) df ;;
  df2 <- filter_isin state (state_col b) df1 ;;
  filter_isin city (city_col b) df2.

(** One entry of [series >= d] or [series <= d] on a datetime series:
    a comparison with [NaT] on either side is false, and a series that
    is not of datetime type cannot be compared with a timestamp. *)
Definition compare_cell (test : Timestamp -> Timestamp -> bool)
    (d : option Timestamp) (c : cell) : result bool :=
  match c with
  | CDate t =>
      Ok (match d with
          | Some d' => test t d'
          | None => false
          end)
  | CNaT => Ok false
  | _ => Raise TypeError
  end.

(** [df[(df[c] >= date1) & (df[c] <= date2)].copy()] *)
Definition date_filter (c : string) (date1 date2 : option Timestamp)
    (df : DataFrame) : result DataFrame :=
  series <- get_column df c ;;
  ge <- mapM (compare_cell (fun t d => ts_leb d t) date1) series ;;
  le <- mapM (compare_cell ts_leb date2) series ;;
  Ok (boolean_index df (zip_with andb ge le)).

(** [series.min()] and [series.max()] of a datetime series: missing
    entries are skipped, and the result is missing when nothing is left. *)
Fixpoint series_extreme (pick : Timestamp -> Timestamp -> Timestamp)
    (series : list cell) : option Timestamp :=
  match series with
  | [] => None
  | CDate t :: rest =>
      match series_extreme pick rest with
      | Some t' => Some (pick t t')
      | None => Some t
      end
  | _ :: rest => series_extreme pick rest
  end.

Definition series_min : list cell -> option Timestamp :=
  series_extreme (fun a b => if ts_leb a b then a else b).

Definition series_max : list cell -> option Timestamp :=
  series_extreme (fun a b => if ts_leb a b then b else a).

End Cleaner.

(** ** Rows of a table, read by header

    The notions the statements about filters are written with. *)

(** The value of a row under a header. *)
Definition row_value (df : DataFrame) (c : string) (r : list cell) : cell :=
  match column_index c (columns df) with
  | Some i => cell_at i r
  | None => CNaN
  end.

(** A value is one of the selected ones. *)
Definition member (v : cell) (selection : list cell) : Prop :=
  exists x, In x selection /\ cell_eqb v x = true.

(** A bound column is a header of the table. *)
Definition has_header (df : DataFrame) (col : option string) : Prop :=
  forall c, col = Some c -> truthy col = true -> In c (columns df).

(** The constraint one dimension puts on a row: none unless values are
    selected and the column is bound. *)
Definition admits (df : DataFrame) (selection : list cell) (col : option string)
    (r : list cell) : Prop :=
  selection <> [] -> truthy col = true ->
  forall c, col = Some c -> member (row_value df c r) selection.

Definition keeps (df : DataFrame) (selection : list cell) (col : option string)
    (r : list cell) : bool :=
  match col with
  | Some c =>
      if nonempty selection && truthy col
      then existsb (cell_eqb (row_value df c r)) selection
      else true
  | None => true
  end.

(** The cells of a column are timestamps or missing timestamps. *)
Definition datetime_cell (c : cell) : bool :=
  match c with
  | CDate _ | CNaT => true
  | _ => false
  end.

Definition datetime_typed (df : DataFrame) (c : string) : Prop :=
  forall r, In r (rows df) -> datetime_cell (row_value df c r) = true.


(** ** Aggregates *)

Definition digit_char (d : N) : ascii := ascii_of_N (48 + d).

(** [n] written with exactly [w] decimal digits, the most significant
    first. *)
Fixpoint digits_fixed (w : nat) (n : N) : string :=
  match w with
  | O => EmptyString
  | S w' =>
      String (digit_char (n / 10 ^ N.of_nat w'))
             (digits_fixed w' (n mod 10 ^ N.of_nat w'))
  end.

(** The text of a monthly period, [YYYY-MM]. *)
Definition month_text (y m : Z) : string :=
  (digits_fixed 4 (Z.to_N y) ++ "-" ++ digits_fixed 2 (Z.to_N m))%string.

Definition month_key (t : Timestamp) : string :=
  month_text (year t) (month t).

(** One entry of [series.dt.to_period("M").astype(str)]; the [dt]
    accessor exists on datetime series only. *)
Definition period_month_str (c : cell) : result cell :=
  match c with
  | CDate t => Ok (CStr (month_key t))
  | CNaT => Ok (CStr "NaT")
  | _ => Raise AttributeError
  end.

(** A number cell's value in a sum; missing entries are skipped.  The
    summed columns are cleaned numeric columns, which hold numbers only. *)
Definition cell_value (c : cell) : Q :=
  match c with
  | CNum x => x
  | _ => 0
  end.

(** [series.sum()] *)
Definition series_sum (series : list cell) : Q :=
  fold_left (fun acc c => acc + cell_value c) series 0.

(** The key of a row in a group-by on a text column; rows with a missing
    key belong to no group. *)
Definition group_key (c : cell) : option string :=
  match c with
  | CStr s => Some s
  | _ => None
  end.

Fixpoint insert_sorted (k : string) (l : list string) : list string :=
  match l with
  | [] => [k]
  | k' :: l' => if String.leb k k' then k :: l else k' :: insert_sorted k l'
  end.

(** Sorting of text keys by code point, as Python compares [str]. *)
Fixpoint sort_strings (l : list string) : list string :=
  match l with
  | [] => []
  | k :: l' => insert_sorted k (sort_strings l')
  end.

Fixpoint present_keys (keys : list cell) : list string :=
  match keys with
  | [] => []
  | c :: rest =>
      match group_key c with
      | Some k => k :: present_keys rest
      | None => present_keys rest
      end
  end.

Definition in_group (k : string) (kv : cell * cell) : bool :=
  match group_key (fst kv) with
  | Some k' => String.eqb k' k
  | None => false
  end.

(** [groupby(key)[val].sum()] with the default [sort=True]: one entry per
    distinct key, keys ascending, each with the sum over its rows. *)
Definition groupby_sum (keys vals : list cell) : list (string * Q) :=
  map (fun k =>
         (k, series_sum (map snd (filter (in_group k) (combine keys vals)))))
      (sort_strings (nodup string_dec (present_keys keys))).

(** [df.groupby(key, as_index=False)[val].sum()] *)
Definition groupby_sum_frame (df : DataFrame) (key val : string)
    : result DataFrame :=
  keys <- get_column df key ;;
  vals <- get_column df val ;;
  Ok {| columns := [key; val];
        rows := map (fun kv => [CStr (fst kv); CNum (snd kv)])
                    (groupby_sum keys vals) |}.

(** The "Sales Over Time" block: the key column is written into
    [filtered_df] itself, then the table is grouped by it.  Returns the
    table as the block leaves it, and [time_df]. *)
Definition sales_over_time (date_c sales_c : string) (filtered_df : DataFrame)
    : result (DataFrame * DataFrame) :=
  dates <- get_column filtered_df date_c ;;
  month_year <- mapM period_month_str dates ;;
  let filtered_df' := set_column filtered_df "Month_Year" month_year in
  time_df <- groupby_sum_frame filtered_df' "Month_Year" sales_c ;;
  Ok (filtered_df', time_df).

(** ** Export *)

Section CsvExport.
Context {P : Pandas}.

Definition dquote : ascii := ascii_of_N 34.

Fixpoint double_quotes (s : string) : string :=
  match s with
  | EmptyString => EmptyString
  | String x s' =>
      if Ascii.eqb x dquote then String x (String x (double_quotes s'))
      else String x (double_quotes s')
  end.

(** A text field under minimal quoting: quoted when it holds the
    separator, a quote or a line break. *)
Definition csv_field (s : string) : string :=
  if string_exists
       (fun x => Ascii.eqb x "," || Ascii.eqb x dquote
                 || Ascii.eqb x (ascii_of_N 10) || Ascii.eqb x (ascii_of_N 13)) s
  then String dquote (double_quotes s ++ String dquote EmptyString)
  else s.

Definition csv_cell (c : cell) : string :=
  match c with
  | CStr s => csv_field s
  | CNum x => str_of_number x
  | CDate t => str_of_timestamp t
  | CNaN | CNaT => EmptyString
  end.

Definition newline : string := String (ascii_of_N 10) EmptyString.

Definition csv_line (fields : list string) : string :=
  (String.concat "," fields ++ newline)%string.

(** [df.to_csv(index=False)]: the header line, then one line per row. *)
Definition to_csv (df : DataFrame) : string :=
  (csv_line (map csv_field (columns df))
   ++ String.concat EmptyString
        (map (fun r => csv_line (map (fun i => csv_cell (cell_at i r))
                                     (seq 0 (ncols df))))
             (rows df)))%string.

(** [s.encode('utf-8')] on Latin-1 code points: two bytes from [0x80]. *)
Fixpoint encode_utf8 (s : string) : string :=
  match s with
  | EmptyString => EmptyString
  | String x s' =>
      let n := char_code x in
      if (n <? 128)%N then String x (encode_utf8 s')
      else String (ascii_of_N (192 + n / 64))
             (String (ascii_of_N (128 + n mod 64)) (encode_utf8 s'))
  end.

End CsvExport.

(** ** The Streamlit script *)

(** What a run puts on the page. *)
Inductive element : Type :=
| Write (text : string)
| ErrorBox (text : string)
| WarningBox (text : string)
| Success (b : Binding)
| Metric (label : string) (value : Q)
| Chart (title : string)
| LineChart (title : string) (data : DataFrame)
| DownloadButton (label : string) (data : string) (file_name : string) (mime : string)
| DataTable (df : DataFrame).

(** How a run ends: it reaches the end of the script, [st.stop()] halts
    it, or an exception escapes. *)
Inductive outcome (A : Type) : Type :=
| Return (a : A)
| Stopped
| Uncaught (e : exn).

Arguments Return {A} a.
Arguments Stopped {A}.
Arguments Uncaught {A} e.

(** A piece of script: the elements it renders, in order, and how it
    ends. *)
Definition script (A : Type) : Type := (list element * outcome A)%type.

Definition ret {A : Type} (a : A) : script A := ([], Return a).

Definition then_ {A B : Type} (m : script A) (k : A -> script B) : script B :=
  match snd m with
  | Return a => (fst m ++ fst (k a), snd (k a))
  | Stopped => (fst m, Stopped)
  | Uncaught e => (fst m, Uncaught e)
  end.

Definition render (e : element) : script unit := ([e], Return tt).

(** [st.stop()] raises a control exception that is not an [Exception],
    so the handler [except Exception] around it does not catch it. *)
Definition st_stop {A : Type} : script A := ([], Stopped).

Definition lift {A : Type} (r : result A) : script A :=
  match r with
  | Ok a => ret a
  | Raise e => ([], Uncaught e)
  end.

Declare Scope script_scope.
Delimit Scope script_scope with script.
Notation "x <~ m ;; k" := (then_ m (fun x => k))
  (at level 61, m at next level, right associativity) : script_scope.
Notation "m ;;; k" := (then_ m (fun _ => k))
  (at level 61, right associativity) : script_scope.

(** The answers of the widgets: each gets its label and its options or
    default, and returns the user's choice. *)
Record Session : Type := mkSession {
  multiselect : string -> list cell -> list cell;
  date_input : string -> option Timestamp -> option Timestamp
}.

Section Script.
Context {B : Builtins} {F : RapidFuzz} {P : Pandas}.
Local Open Scope script_scope.

Definition tab : ascii := ascii_of_N 9.

(** The delimiters tried, in order: comma, semicolon, tab. *)
Definition delimiters : list ascii := [","%char; ";"%char; tab].

(** A delimiter is rejected when decoding with it raises or gives at most
    one column. *)
Definition rejected (fl : UploadedFile) (delimiter : ascii) : Prop :=
  forall df, read_csv fl delimiter = Ok df -> (ncols df <= 1)%nat.

(** The [for delimiter in [',', ';', '\t']] loop with its bare [except]:
    the table of the first delimiter that decodes without raising into
    more than one column; [None] when [detected] stays false. *)
Fixpoint detect_delimiter (fl : UploadedFile) (delimiters : list ascii)
    : option DataFrame :=
  match delimiters with
  | [] => None
  | delimiter :: rest =>
      match read_csv fl delimiter with
      | Ok df =>
          if (1 <? ncols df)%nat then Some df
          else detect_delimiter fl rest
      | Raise _ => detect_delimiter fl rest
      end
  end.

(** The [try] block that reads the uploaded file.  The text of the
    exception in the second message is left out. *)
Definition load_file (fl : UploadedFile) : script DataFrame :=
  if endswith_any (name fl) ["csv"; "txt"]%string then
    match detect_delimiter fl delimiters with
    | Some df => ret df
    | None =>
        render (ErrorBox "Could not read CSV file. Please check delimiter or file structure.") ;;;
        st_stop
    end
  else
    match read_excel fl with
    | Ok df => ret df
    | Raise _ =>
        render (ErrorBox "Error reading file") ;;;
        st_stop
    end.

(** "Detecting Key Columns" *)
Definition detect_columns (columns : list string) : result Binding :=
  (date_c <- find_best_column ["InvoiceDate"; "Order Date"; "Date"]%string columns ;;
   sales_c <- find_best_column ["TotalSales"; "Sales"]%string columns ;;
   profit_c <- find_best_column ["OperatingProfit"; "Profit"]%string columns ;;
   product_c <- find_best_column ["Product"; "Category"; "Product Name"]%string columns ;;
   region_c <- find_best_column ["Region"]%string columns ;;
   state_c <- find_best_column ["State"]%string columns ;;
   city_c <- find_best_column ["City"]%string columns ;;
   retailer_c <- find_best_column ["Retailer"]%string columns ;;
   quantity_c <- find_best_column ["UnitsSold"; "Quantity"]%string columns ;;
   Ok (mkBinding date_c sales_c profit_c product_c region_c state_c city_c
         retailer_c quantity_c))%result.

(** A sidebar filter: the widget is shown for a bound column only. *)
Definition pick (ui : Session) (label : string) (col : option string)
    (df : DataFrame) : result (list cell) :=
  match col with
  | Some c =>
      if truthy col then
        (series <- get_column df c ;;
         Ok (multiselect ui label (unique series)))%result
      else Ok []
  | None => Ok []
  end.

(** "Date Filter" *)
Definition date_filter_block (ui : Session) (b : Binding) (filtered_df : DataFrame)
    : result DataFrame :=
  match date_col b with
  | Some c =>
      if truthy (date_col b) then
        (series <- get_column filtered_df c ;;
         let date1 := date_input ui "Start Date" (series_min series) in
         let date2 := date_input ui "End Date" (series_max series) in
         date_filter c date1 date2 filtered_df)%result
      else Ok filtered_df
  | None => Ok filtered_df
  end.

(** [filtered_df[col].sum() if col else 0] *)
Definition kpi (col : option string) (filtered_df : DataFrame) : result Q :=
  match col with
  | Some c =>
      if truthy col then
        (series <- get_column filtered_df c ;; Ok (series_sum series))%result
      else Ok 0
  | None => Ok 0
  end.

(** A chart that only reads [filtered_df]; shown when its roles are
    bound. *)
Definition chart_if (roles : list (option string)) (title : string)
    : script unit :=
  if forallb truthy roles then render (Chart title) else ret tt.

(** "Sales Over Time": the one block that writes to [filtered_df]. *)
Definition time_block (b : Binding) (filtered_df : DataFrame)
    : script DataFrame :=
  match date_col b, sales_col b with
  | Some dc, Some sc =>
      if truthy (date_col b) && truthy (sales_col b) then
        r <~ lift (sales_over_time dc sc filtered_df) ;;
        render (LineChart "Total Sales Over Time" (snd r)) ;;;
        ret (fst r)
      else ret filtered_df
  | _, _ => ret filtered_df
  end.

(** "Download Data" *)
Definition download_block (filtered_df : DataFrame) : script unit :=
  render (DownloadButton "Download Filtered Data"
            (encode_utf8 (to_csv filtered_df)) "Filtered_Data.csv" "text/csv").

(** The script from the KPIs to its end, on the table the filters
    produced. *)
Definition present (b : Binding) (filtered_df : DataFrame) : script unit :=
  total_sales <~ lift (kpi (sales_col b) filtered_df) ;;
  total_profit <~ lift (kpi (profit_col b) filtered_df) ;;
  total_units <~ lift (kpi (quantity_col b) filtered_df) ;;
  render (Metric "Total Sales" total_sales) ;;;
  render (Metric "Total Profit" total_profit) ;;;
  render (Metric "Units Sold" total_units) ;;;
  render (Metric "Total Orders" (inject_Z (Z.of_nat (List.length (rows filtered_df))))) ;;;
  chart_if [retailer_col b; sales_col b] "Total Sales by Retailer" ;;;
  filtered_df <~ time_block b filtered_df ;;
  chart_if [region_col b; city_col b; sales_col b]
    "Total Sales by Region and City in Treemap" ;;;
  chart_if [state_col b; sales_col b; quantity_col b]
    "Total Sales and Units Sold by State" ;;;
  chart_if [retailer_col b; sales_col b] "Retailer wise Sales" ;;;
  chart_if [product_col b; sales_col b] "Product wise Sales" ;;;
  download_block filtered_df ;;;
  render (DataTable filtered_df).

(** The table the Filter Engine hands on: the cleaned table after the
    sidebar filters and the date filter. *)
Definition filtered_table (ui : Session) (b : Binding) (df : DataFrame)
    : result DataFrame :=
  (df <- clean b df ;;
   region <- pick ui "Pick Region" (region_col b) df ;;
   state <- pick ui "Pick State" (state_col b) df ;;
   city <- pick ui "Pick City" (city_col b) df ;;
   filtered_df <- dimension_filter b region state city df ;;
   date_filter_block ui b filtered_df)%result.

(** The script, run once, from the upload on.  The page lists the
    messages, metrics, charts, the download button and the table view;
    the title, the widgets themselves and the headings are left out. *)
Definition dashboard (ui : Session) (fl : option UploadedFile) : script unit :=
  match fl with
  | Some fl =>
      render (Write ("**Uploaded File:** " ++ name fl)) ;;;
      df <~ load_file fl ;;
      b <~ lift (detect_columns (columns df)) ;;
      render (Success b) ;;;
      filtered_df <~ lift (filtered_table ui b df) ;;
      present b filtered_df
  | None => render (WarningBox "Please upload a valid Sales file to proceed.")
  end.

End Script.

(** ** A reference instance of [Pandas]

    Enough of the decoders to run the script on concrete files: decimal
    literals, ISO calendar dates and unquoted delimited text.  It is
    narrower than pandas: a text in another notation (a date written
    with slashes, the word for infinity, a quoted field) is read here as
    no date, no number or plain text.  The statements made for every
    [Pandas] do not depend on it. *)

Definition digit_value (c : ascii) : option N :=
  let n := char_code c in
  if ((48 <=? n) && (n <=? 57))%N then Some (n - 48)%N else None.

(** Reads the leading digits of [s] on top of [acc]: the value, the
    number of digits read and the rest of the text. *)
Fixpoint read_digits (s : string) (acc : N) (count : nat) : N * nat * string :=
  match s with
  | EmptyString => (acc, count, s)
  | String c s' =>
      match digit_value c with
      | Some d => read_digits s' (10 * acc + d)%N (S count)
      | None => (acc, count, s)
      end
  end.

Definition read_sign (s : string) : bool * string :=
  match s with
  | String c s' =>
      if Ascii.eqb c "-" then (true, s')
      else if Ascii.eqb c "+" then (false, s')
      else (false, s)
  | EmptyString => (false, s)
  end.

Definition signed (neg : bool) (n : N) : Z :=
  if neg then (- Z.of_N n)%Z else Z.of_N n.

(** The exponent part: nothing, or [e] or [E], a sign and digits up to
    the end of the text. *)
Definition read_exponent (s : string) : option Z :=
  match s with
  | EmptyString => Some 0%Z
  | String c s' =>
      if Ascii.eqb c "e" || Ascii.eqb c "E" then
        let (neg, s1) := read_sign s' in
        match read_digits s1 0 0 with
        | (v, S _, EmptyString) => Some (signed neg v)
        | _ => None
        end
      else None
  end.

(** A decimal literal: sign, digits, a point and digits, an exponent;
    at least one digit in the mantissa.  The words for infinities and
    NaN are not numbers here. *)
Definition decimal_literal (s : string) : option Q :=
  let (neg, s1) := read_sign s in
  let '(ip, ni, s2) := read_digits s1 0 0 in
  let '(m, nf, s3) :=
    match s2 with
    | String c s2' =>
        if Ascii.eqb c "." then read_digits s2' ip 0 else (ip, O, s2)
    | EmptyString => (ip, O, s2)
    end in
  match (ni + nf)%nat with
  | O => None
  | S _ =>
      match read_exponent s3 with
      | Some e => Some (Qred (inject_Z (signed neg m) * 10 ^ (e - Z.of_nat nf)))
      | None => None
      end
  end.

(** The least width from [w] on in which [n] fits, searched for [fuel]
    steps. *)
Fixpoint fitting_width (n : N) (w fuel : nat) : nat :=
  if (n <? 10 ^ N.of_nat w)%N then w
  else match fuel with
       | O => w
       | S fuel' => fitting_width n (S w) fuel'
       end.

(** A natural number in decimal, without leading zeros. *)
Definition natural_text (n : N) : string :=
  digits_fixed (fitting_width n 1 (N.size_nat n)) n.

(** The least [k <= fuel] with [d] dividing [10 ^ k]. *)
Fixpoint decimal_places (d : N) (k : N) (fuel : nat) : option N :=
  if (10 ^ k mod d =? 0)%N then Some k
  else match fuel with
       | O => None
       | S fuel' => decimal_places d (k + 1)%N fuel'
       end.

(** The text of a number with a finite decimal expansion: an integer
    without a point, otherwise all its decimals.  A number without one is
    written as a fraction. *)
Definition decimal_text (x : Q) : string :=
  let q := Qred x in
  let d := Npos (Qden q) in
  let sign := if (Qnum q <? 0)%Z then "-"%string else EmptyString in
  let n := Z.abs_N (Qnum q) in
  match decimal_places d 0 (Pos.size_nat (Qden q)) with
  | Some k =>
      let m := (n * (10 ^ k / d))%N in
      let ip := natural_text (m / 10 ^ k) in
      if (k =? 0)%N then (sign ++ ip)%string
      else (sign ++ ip ++ "." ++ digits_fixed (N.to_nat k) (m mod 10 ^ k))%string
  | None => (sign ++ natural_text n ++ "/" ++ natural_text d)%string
  end.

Definition leap_year (y : N) : bool :=
  ((y mod 4 =? 0) && negb (y mod 100 =? 0) || (y mod 400 =? 0))%N.

Definition days_in_month (y m : N) : N :=
  if (m =? 2)%N then (if leap_year y then 29 else 28)%N
  else if ((m =? 4) || (m =? 6) || (m =? 9) || (m =? 11))%N then 30%N
  else 31%N.

(** A calendar date [YYYY-MM-DD] that exists and that a timestamp can
    hold, at midnight. *)
Definition iso_date (s : string) : option Timestamp :=
  match read_digits s 0 0 with
  | (y, 4%nat, String c1 s1) =>
      match read_digits s1 0 0 with
      | (m, 2%nat, String c2 s2) =>
          match read_digits s2 0 0 with
          | (d, 2%nat, EmptyString) =>
              if Ascii.eqb c1 "-" && Ascii.eqb c2 "-"
                 && ((1677 <=? y) && (y <=? 2262) && (1 <=? m) && (m <=? 12)
                     && (1 <=? d) && (d <=? days_in_month y m))%N
              then Some (mkTimestamp (Z.of_N y) (Z.of_N m) (Z.of_N d) 0)
              else None
          | _ => None
          end
      | _ => None
      end
  | _ => None
  end.

Definition iso_text (t : Timestamp) : string :=
  (digits_fixed 4 (Z.to_N (year t)) ++ "-" ++ digits_fixed 2 (Z.to_N (month t))
   ++ "-" ++ digits_fixed 2 (Z.to_N (day t)))%string.

(** [s.split(sep)] for a one-character separator. *)
Fixpoint split_on (sep : ascii) (s : string) : list string :=
  match s with
  | EmptyString => [EmptyString]
  | String x s' =>
      if Ascii.eqb x sep then EmptyString :: split_on sep s'
      else match split_on sep s' with
           | field :: rest => String x field :: rest
           | [] => [String x EmptyString]
           end
  end.

Definition text_cell (s : string) : cell :=
  match s with
  | EmptyString => CNaN
  | _ => CStr s
  end.

(** Unquoted delimited text with a header line; cells are kept as text,
    an empty one is missing.  Blank lines are skipped; no line at all, or
    a row with more fields than the header, is a decode error. *)
Definition split_lines_csv (fl : UploadedFile) (delimiter : ascii)
    : result DataFrame :=
  let lines :=
    filter (fun l => negb (String.eqb l EmptyString))
           (split_on (ascii_of_N 10) (content fl)) in
  match lines with
  | [] => Raise DecodeFailure
  | header :: body =>
      let cols := split_on delimiter header in
      let body_rows := map (split_on delimiter) body in
      if forallb (fun r => (List.length r <=? List.length cols)%nat) body_rows
      then Ok {| columns := cols; rows := map (map text_cell) body_rows |}
      else Raise DecodeFailure
  end.

(** The reference instance decodes text only: it reads no number as a
    date and has no spreadsheet decoder. *)
#[export] Instance reference_pandas : Pandas := {|
  parse_number := decimal_literal;
  parse_datetime := iso_date;
  datetime_of_number := fun _ => None;
  str_of_number := decimal_text;
  str_of_timestamp := iso_text;
  read_csv := split_lines_csv;
  read_excel := fun _ => Raise DecodeFailure
|}.

(** The reference instance with a spreadsheet decoder that finds an
    empty first sheet: a table without headers and without rows. *)
Definition empty_sheet_pandas : Pandas := {|
  parse_number := decimal_literal;
  parse_datetime := iso_date;
  datetime_of_number := fun _ => None;
  str_of_number := decimal_text;
  str_of_timestamp := iso_text;
  read_csv := split_lines_csv;
  read_excel := fun _ => Ok {| columns := []; rows := [] |}
|}.

(** A session in which the user touches no widget. *)
Definition untouched : Session :=
  {| multiselect := fun _ _ => [];
     date_input := fun _ default => default |}.






(** The key text of a date cell. *)
Definition cell_month_key (c : cell) : string :=
  match c with
  | CDate t => month_key t
  | _ => "NaT"
  end.


(** The data offered by the download buttons of a page. *)
Fixpoint exported (page : list element) : list string :=
  match page with
  | [] => []
  | DownloadButton _ data _ _ :: rest => data :: exported rest
  | _ :: rest => exported rest
  end.

(** A text the numeric cleaner leaves as it is: no comma, no dollar sign,
    no whitespace at either end. *)
Definition plain_text (s : string) : Prop :=
  string_exists (Ascii.eqb ",") s = false
  /\ string_exists (Ascii.eqb "$") s = false
  /\ strip s = s.

(** The characters of a decimal numeral: digits, the minus sign and the
    point. *)
Definition numeral_char (c : ascii) : bool :=
  match digit_value c with
  | Some _ => true
  | None => Ascii.eqb c "-" || Ascii.eqb c "."
  end.

Fixpoint numeral (s : string) : bool :=
  match s with
  | EmptyString => true
  | String x s' => numeral_char x && numeral s'
  end.

(** A pure number: its text, as [astype(str)] writes it, is plain and
    reads back as the same number.  Python writes its integers and its
    finite floats this way. *)
Definition pure_number {P : Pandas} (x : Q) : Prop :=
  plain_text (str_of_number x)
  /\ parse_number (str_of_number x) = Some x.

(** ** Sample inputs *)

(** A workbook; what it holds is up to the spreadsheet decoder. *)
Definition workbook_file : UploadedFile :=
  {| name := "sales.xlsx"; content := EmptyString |}.

(** A file no delimiter splits into columns. *)
Definition one_column_file : UploadedFile :=
  {| name := "notes.csv";
     content := ("remarks" ++ newline ++ "nothing to split here" ++ newline)%string |}.

(** A semicolon-separated file. *)
Definition semicolon_file : UploadedFile :=
  {| name := "sales.txt";
     content := ("Sales;Region" ++ newline ++ "100;East" ++ newline)%string |}.

(** A file without a date column. *)
Definition undated_file : UploadedFile :=
  {| name := "sales.csv";
     content := ("Sales,Region" ++ newline ++ "100,East" ++ newline
                 ++ "250,West" ++ newline)%string |}.




(** A small sales file, comma separated. *)
Definition sample_file : UploadedFile :=
  {| name := "sales.csv";
     content := ("Order Date,Sales,Region" ++ newline
                 ++ "2023-01-05,$100,East" ++ newline
                 ++ "2023-02-07,250,West" ++ newline
                 ++ "2023-01-09,50,East" ++ newline)%string |}.

(** The table of [sample_file] after cleaning. *)
Definition sample_frame : DataFrame :=
  {| columns := ["Order Date"; "Sales"; "Region"]%string;
     rows := [[CDate (mkTimestamp 2023 1 5 0); CNum 100; CStr "East"];
              [CDate (mkTimestamp 2023 2 7 0); CNum 250; CStr "West"];
              [CDate (mkTimestamp 2023 1 9 0); CNum 50; CStr "East"]] |}.

(** The binding the resolver gives for the headers of [sample_file]. *)
Definition sample_binding : Binding :=
  {| date_col := Some "Order Date"%string;
     sales_col := Some "Sales"%string;
     profit_col := None;
     product_col := None;
     region_col := Some "Region"%string;
     state_col := None;
     city_col := None;
     retailer_col := None;
     quantity_col := None |}.

(** ** Notions for further statements *)

(** The nine bindings of a [Binding], in the order the script resolves
    them. *)
Definition roles (b : Binding) : list (option string) :=
  [date_col b; sales_col b; profit_col b; product_col b; region_col b;
   state_col b; city_col b; retailer_col b; quantity_col b].

(** A binding that names header [c] and passes the test [if col:]. *)
Definition binds (col : option string) (c : string) : bool :=
  match col with
  | Some c' => String.eqb c' c && truthy col
  | None => false
  end.

(** A cell that holds a number. *)
Definition is_number (c : cell) : bool :=
  match c with
  | CNum _ => true
  | _ => false
  end.


(** The table of [sample_file] as the reference reader delivers it. *)
Definition raw_sample_frame : DataFrame :=
  {| columns := ["Order Date"; "Sales"; "Region"]%string;
     rows := [[CStr "2023-01-05"; CStr "$100"; CStr "East"];
              [CStr "2023-02-07"; CStr "250"; CStr "West"];
              [CStr "2023-01-09"; CStr "50"; CStr "East"]] |}.

(* ================================================================== *)
(** * Part II: theorems                                                *)
(* ================================================================== *)


(** ** Python's [max] and dictionaries *)

Section MaxFacts.
Variable A : Type.
Variable key : A -> Q.

Lemma Qgt_bool_true (a b : Q) : Qgt_bool a b = true <-> b < a.
Proof.
  unfold Qgt_bool. rewrite negb_true_iff, <- not_true_iff_false, Qle_bool_iff.
  split; [apply Qnot_le_lt | apply Qlt_not_le].
Qed.

Lemma Qgt_bool_false (a b : Q) : Qgt_bool a b = false <-> a <= b.
Proof.
  unfold Qgt_bool. rewrite negb_false_iff. apply Qle_bool_iff.
Qed.

Lemma max_loop_in (l : list A) : forall best, In (max_loop key best l) (best :: l).
Proof.
  induction l as [|x l IH]; intros best; simpl.
  - now left.
  - destruct (IH (if Qgt_bool (key x) (key best) then x else best)) as [H|H].
    + destruct (Qgt_bool (key x) (key best)); rewrite <- H; auto.
    + auto.
Qed.

Lemma max_loop_ge_best (l : list A) :
  forall best, key best <= key (max_loop key best l).
Proof.
  induction l as [|x l IH]; intros best; simpl.
  - apply Qle_refl.
  - destruct (Qgt_bool (key x) (key best)) eqn:E.
    + apply Qgt_bool_true in E.
      eapply Qle_trans; [apply Qlt_le_weak, E | apply IH].
    + apply IH.
Qed.

Lemma max_loop_ge (l : list A) :
  forall best x, In x (best :: l) -> key x <= key (max_loop key best l).
Proof.
  induction l as [|y l IH]; intros best x Hx.
  - destruct Hx as [<-|[]]. apply Qle_refl.
  - cbn [max_loop]. destruct Hx as [Hx|[Hx|Hx]].
    + subst x. apply (max_loop_ge_best (y :: l)).
    + subst x. destruct (Qgt_bool (key y) (key best)) eqn:E.
      * apply IH. now left.
      * apply Qgt_bool_false in E.
        eapply Qle_trans; [exact E | apply IH; now left].
    + apply IH. now right.
Qed.

(** On a non-empty list [max] returns a member that no member exceeds. *)
Lemma py_max_key_spec (l : list A) :
  l <> [] ->
  exists b, py_max_key key l = Ok b /\ In b l /\ forall x, In x l -> key x <= key b.
Proof.
  destruct l as [|x l]; [congruence|]. intros _.
  exists (max_loop key x l). split; [reflexivity|].
  split; [apply max_loop_in | intros; now apply max_loop_ge].
Qed.

End MaxFacts.

Section DictFacts.
Variable V : Type.

Lemma dict_set_in (d : dict V) (k : string) (v : V) (k' : string) (v' : V) :
  In (k', v') (dict_set d k v) -> (k' = k /\ v' = v) \/ In (k', v') d.
Proof.
  induction d as [|[k0 v0] d IH]; simpl.
  - intros [H|[]]. inversion H. auto.
  - destruct (String.eqb_spec k0 k) as [->|Hne]; simpl.
    + intros [H|H]; [inversion H; auto | auto].
    + intros [H|H]; [auto | destruct (IH H); auto].
Qed.

Lemma dict_set_keys (d : dict V) (k : string) (v : V) (k' : string) :
  In k' (map fst (dict_set d k v)) <-> k' = k \/ In k' (map fst d).
Proof.
  induction d as [|[k0 v0] d IH]; simpl.
  - intuition.
  - destruct (String.eqb_spec k0 k) as [->|Hne]; simpl.
    + intuition.
    + rewrite IH. intuition.
Qed.

Lemma dict_get_in (d : dict V) (k : string) :
  In k (map fst d) -> exists v, dict_get d k = Some v /\ In (k, v) d.
Proof.
  induction d as [|[k0 v0] d IH]; simpl; [intros []|].
  destruct (String.eqb_spec k0 k) as [->|Hne].
  - intros _. exists v0. auto.
  - intros [H|H]; [congruence|].
    destruct (IH H) as (v & Hv & Hin). exists v. auto.
Qed.

End DictFacts.

(** ** Column resolver *)

Section ResolverFacts.
Context {B : Builtins} {F : RapidFuzz}.

(** With candidates at hand the score of a header is its best similarity. *)
Lemma column_score_spec (C : list string) (col : string) :
  C <> [] ->
  exists m, column_score C col = Ok m
    /\ (exists c, In c C /\ m = similarity col c)
    /\ (forall c, In c C -> similarity col c <= m).
Proof.
  intros HC. unfold column_score, py_max.
  destruct (@py_max_key_spec Q (fun q => q) (map (similarity col) C))
    as (m & Hm & Hin & Hmax).
  - destruct C; [congruence | discriminate].
  - exists m. split; [exact Hm|]. split.
    + apply in_map_iff in Hin. destruct Hin as (c & Hc & Hin). eauto.
    + intros c Hc. apply Hmax. now apply in_map.
Qed.

Lemma fill_matches_spec (C : list string) (HC : C <> []) (H : list string) :
  forall d, scored C d ->
  exists d', fill_matches C H d = Ok d' /\ scored C d'
    /\ forall k, In k (map fst d') <-> In k (map fst d) \/ In k H.
Proof.
  induction H as [|col H IH]; intros d Hd; simpl.
  - exists d. intuition.
  - destruct (column_score_spec col HC) as (m & Hm & _).
    rewrite Hm. simpl.
    destruct (IH (dict_set d col m)) as (d' & Hfill & Hsc & Hkeys).
    + intros k v Hin. apply dict_set_in in Hin.
      destruct Hin as [[-> ->]|Hin]; [exact Hm | now apply Hd].
    + exists d'. split; [exact Hfill|]. split; [exact Hsc|].
      intros k. rewrite Hkeys, dict_set_keys. intuition.
Qed.

(** The resolver on non-empty inputs: the header it looks at has the
    greatest similarity of all, and is bound exactly above 60. *)
Lemma find_best_column_spec (C H : list string) :
  H <> [] -> C <> [] ->
  exists h m,
    In h H
    /\ (exists c, In c C /\ m = similarity h c)
    /\ (forall h' c', In h' H -> In c' C -> similarity h' c' <= m)
    /\ find_best_column C H = Ok (if Qgt_bool m 60 then Some h else None).
Proof.
  intros HH HC. unfold find_best_column.
  destruct (@fill_matches_spec C HC H []) as (d & Hfill & Hsc & Hkeys).
  { intros k v []. }
  rewrite Hfill. simpl.
  destruct (@py_max_key_spec _ (@snd string Q) d) as (best & Hbest & Hin & Hmax).
  { destruct H as [|h0 H]; [congruence|].
    assert (Hk : In h0 (map fst d)) by (apply Hkeys; right; now left).
    destruct d; [destruct Hk | discriminate]. }
  rewrite Hbest. simpl.
  destruct best as [h m]. simpl in *.
  assert (Hh : In h (map fst d)) by (apply in_map_iff; exists (h, m); auto).
  destruct (dict_get_in d h Hh) as (v & Hget & Hv).
  unfold dict_item. rewrite Hget. simpl.
  assert (v = m) as ->.
  { apply Hsc in Hv. apply Hsc in Hin. congruence. }
  exists h, m. split.
  { apply Hkeys in Hh. destruct Hh as [[]|Hh]. exact Hh. }
  destruct (column_score_spec h HC) as (m' & Hm' & Hex & _).
  rewrite (Hsc _ _ Hin) in Hm'. inversion Hm'; subst m'.
  split; [exact Hex|]. split; [|reflexivity].
  intros h' c' Hh' Hc'.
  assert (Hk' : In h' (map fst d)) by (apply Hkeys; now right).
  destruct (dict_get_in d h' Hk') as (v' & _ & Hv').
  destruct (column_score_spec h' HC) as (m'' & Hm'' & _ & Hle).
  rewrite (Hsc _ _ Hv') in Hm''. inversion Hm''; subst m''.
  eapply Qle_trans; [apply Hle, Hc' | apply (Hmax (h', v') Hv')].
Qed.

End ResolverFacts.

(** C1 (the code departs from it): with an empty header list the
    resolver does not return an unbound role.  The loop leaves [matches]
    empty and [max] of an empty dictionary raises [ValueError], whatever
    the candidate names are.  A workbook whose first sheet is empty brings
    the script there: the run shows the file name and ends with the
    uncaught exception. *)
Theorem find_best_column_no_headers_raises :
  (forall (B : Builtins) (F : RapidFuzz) (possible_names : list string),
     find_best_column possible_names [] = Raise ValueError)
  /\ @dashboard latin1_builtins indel_rapidfuzz empty_sheet_pandas untouched
       (Some workbook_file)
     = ([Write "**Uploaded File:** sales.xlsx"], Uncaught ValueError).
Proof.
  split.
  - intros. reflexivity.
  - vm_compute. reflexivity.
Qed.

(** C2: for a non-empty header list and non-empty candidate list the
    resolver looks at a header [h] whose similarity [m] is the greatest
    over all headers and candidates; it binds [h] when [m] is strictly
    greater than 60 and leaves the role unbound otherwise.  So headers
    that all score at most 60 are never bound, and header "Widget"
    against the candidate "Region" gives no binding. *)
Theorem find_best_column_threshold :
  (forall (B : Builtins) (F : RapidFuzz) (C H : list string),
     H <> [] -> C <> [] ->
     exists h m,
       In h H
       /\ (exists c, In c C /\ m = similarity h c)
       /\ (forall h' c', In h' H -> In c' C -> similarity h' c' <= m)
       /\ (60 < m -> find_best_column C H = Ok (Some h))
       /\ (m <= 60 -> find_best_column C H = Ok None))
  /\ (forall (B : Builtins) (F : RapidFuzz) (C H : list string),
        H <> [] -> C <> [] ->
        (forall h c, In h H -> In c C -> similarity h c <= 60) ->
        find_best_column C H = Ok None)
  /\ @find_best_column latin1_builtins indel_rapidfuzz
       ["Region"%string] ["Widget"%string] = Ok None.
Proof.
  split; [|split].
  - intros B F C H HH HC.
    destruct (find_best_column_spec HH HC) as (h & m & Hh & Hex & Hmax & Hres).
    exists h, m. repeat split; auto.
    + intros Hgt. rewrite Hres.
      apply Qgt_bool_true in Hgt. now rewrite Hgt.
    + intros Hle. rewrite Hres.
      apply Qgt_bool_false in Hle. now rewrite Hle.
  - intros B F C H HH HC Hall.
    destruct (find_best_column_spec HH HC) as (h & m & Hh & (c & Hc & Hm) & _ & Hres).
    rewrite Hres.
    assert (Hle : m <= 60) by (rewrite Hm; now apply Hall).
    apply Qgt_bool_false in Hle. now rewrite Hle.
  - vm_compute. reflexivity.
Qed.

(** The threshold rule at the headers of a small sales file. *)
Lemma find_best_column_threshold_witness :
  exists h m,
    In h ["Order Date"; "Sales"; "Region"]%string
    /\ (exists c, In c ["TotalSales"; "Sales"]%string
                  /\ m = @similarity latin1_builtins indel_rapidfuzz h c)
    /\ (forall h' c', In h' ["Order Date"; "Sales"; "Region"]%string ->
                      In c' ["TotalSales"; "Sales"]%string ->
                      @similarity latin1_builtins indel_rapidfuzz h' c' <= m)
    /\ (60 < m -> @find_best_column latin1_builtins indel_rapidfuzz
                    ["TotalSales"; "Sales"]%string
                    ["Order Date"; "Sales"; "Region"]%string = Ok (Some h))
    /\ (m <= 60 -> @find_best_column latin1_builtins indel_rapidfuzz
                     ["TotalSales"; "Sales"]%string
                     ["Order Date"; "Sales"; "Region"]%string = Ok None).
Proof.
  apply (proj1 find_best_column_threshold); discriminate.
Defined.

(** ** Tables *)

Section TableFacts.

Lemma column_index_in (c : string) (cols : list string) :
  In c cols -> exists i, column_index c cols = Some i /\ (i < List.length cols)%nat.
Proof.
  induction cols as [|c' cols IH]; simpl; [intros []|].
  destruct (String.eqb_spec c' c) as [->|Hne].
  - intros _. exists O. split; [reflexivity | lia].
  - intros [H|H]; [congruence|].
    destruct (IH H) as (i & -> & Hi). exists (S i). split; [reflexivity | lia].
Qed.

Lemma column_index_some (c : string) (cols : list string) (i : nat) :
  column_index c cols = Some i -> In c cols.
Proof.
  revert i. induction cols as [|c' cols IH]; simpl; intros i; [discriminate|].
  destruct (String.eqb_spec c' c) as [->|Hne]; [auto|].
  destruct (column_index c cols); [|discriminate]. intros _. right. eapply IH; eauto.
Qed.

Lemma get_column_row_value (df : DataFrame) (c : string) :
  In c (columns df) -> get_column df c = Ok (map (row_value df c) (rows df)).
Proof.
  intros Hc. unfold get_column, row_value.
  destruct (column_index_in c (columns df) Hc) as (i & -> & _). reflexivity.
Qed.

Lemma row_value_same_columns (df df' : DataFrame) (c : string) (r : list cell) :
  columns df' = columns df -> row_value df' c r = row_value df c r.
Proof.
  intros H. unfold row_value. now rewrite H.
Qed.

Lemma select_rows_map (f : list cell -> bool) (rs : list (list cell)) :
  select_rows rs (map f rs) = filter f rs.
Proof.
  induction rs as [|r rs IH]; simpl; [reflexivity|].
  rewrite IH. reflexivity.
Qed.

Lemma filter_twice (A : Type) (f g : A -> bool) (l : list A) :
  filter f (filter g l) = filter (fun x => g x && f x) l.
Proof.
  induction l as [|x l IH]; simpl; [reflexivity|].
  destruct (g x); simpl; [destruct (f x)|]; now rewrite IH.
Qed.

Lemma filter_all (A : Type) (l : list A) : filter (fun _ => true) l = l.
Proof.
  induction l as [|x l IH]; simpl; [reflexivity | now rewrite IH].
Qed.

Lemma nonempty_true (A : Type) (l : list A) : nonempty l = true <-> l <> [].
Proof.
  destruct l; simpl; split; congruence.
Qed.

End TableFacts.

(** ** Sidebar filters *)

Section FilterFacts.

Lemma keeps_same_columns (df df' : DataFrame) sel col r :
  columns df' = columns df -> keeps df' sel col r = keeps df sel col r.
Proof.
  intros H. unfold keeps, row_value. now rewrite H.
Qed.

Lemma keeps_admits (df : DataFrame) sel col r :
  keeps df sel col r = true <-> admits df sel col r.
Proof.
  unfold keeps, admits, member. destruct col as [c|].
  - destruct (nonempty sel) eqn:Hs; cbn [andb].
    + destruct (truthy (Some c)) eqn:Ht.
      * rewrite existsb_exists. split.
        -- intros Hex _ _ c' Hc'. inversion Hc'; subst c'. exact Hex.
        -- intros H. apply H; auto. now apply nonempty_true.
      * split; [discriminate | reflexivity].
    + split; [|reflexivity]. intros _ Hne.
      apply nonempty_true in Hne. congruence.
  - split; [discriminate | reflexivity].
Qed.

(** One sidebar filter keeps the headers and keeps, in order, the rows
    the dimension admits. *)
Lemma filter_isin_spec (sel : list cell) (col : option string) (df : DataFrame) :
  has_header df col ->
  exists df', filter_isin sel col df = Ok df'
    /\ columns df' = columns df
    /\ rows df' = filter (keeps df sel col) (rows df).
Proof.
  intros Hh. unfold filter_isin, keeps. destruct col as [c|].
  - destruct (nonempty sel && truthy (Some c)) eqn:E.
    + apply andb_true_iff in E. destruct E as [_ Ht].
      rewrite (get_column_row_value df c (Hh c eq_refl Ht)). simpl.
      eexists. split; [reflexivity|]. split; [reflexivity|]. simpl.
      unfold isin. rewrite map_map. apply select_rows_map.
    + exists df. rewrite filter_all. auto.
  - exists df. rewrite filter_all. auto.
Qed.

End FilterFacts.

(** C3: the three sidebar filters together.  When the bound dimension
    columns are headers of the table, the filter returns a table with the
    same headers whose rows are, in order, the rows of the input that
    every dimension admits: a dimension with selected values and a bound
    column admits the rows whose value in that column is selected, and a
    dimension with no selected value or no bound column admits every
    row. *)
Theorem dimension_filter_membership :
  forall (b : Binding) (region state city : list cell) (df : DataFrame),
    has_header df (region_col b) ->
    has_header df (state_col b) ->
    has_header df (city_col b) ->
    exists df',
      dimension_filter b region state city df = Ok df'
      /\ columns df' = columns df
      /\ rows df' =
           filter (fun r => keeps df region (region_col b) r
                            && keeps df state (state_col b) r
                            && keeps df city (city_col b) r) (rows df)
      /\ (forall r,
            In r (rows df') <->
            In r (rows df)
            /\ admits df region (region_col b) r
            /\ admits df state (state_col b) r
            /\ admits df city (city_col b) r)
      /\ (forall sel col r,
            sel = [] \/ truthy col = false -> admits df sel col r).
Proof.
  intros b region state city df Hr Hs Hc. unfold dimension_filter.
  destruct (filter_isin_spec region Hr) as (df1 & E1 & C1 & R1).
  rewrite E1. simpl.
  assert (Hs1 : has_header df1 (state_col b)) by (unfold has_header; now rewrite C1).
  destruct (filter_isin_spec state Hs1) as (df2 & E2 & C2 & R2).
  rewrite E2. simpl.
  assert (Hc2 : has_header df2 (city_col b))
    by (unfold has_header; now rewrite C2, C1).
  destruct (filter_isin_spec city Hc2) as (df3 & E3 & C3 & R3).
  assert (Hrows : rows df3 =
           filter (fun r => keeps df region (region_col b) r
                            && keeps df state (state_col b) r
                            && keeps df city (city_col b) r) (rows df)).
  { rewrite R3, R2, R1, !filter_twice. apply filter_ext. intros r.
    rewrite (@keeps_same_columns df df1 state (state_col b) r C1).
    rewrite (@keeps_same_columns df df2 city (city_col b) r)
      by (now rewrite C2, C1).
    apply andb_assoc. }
  exists df3. split; [exact E3|]. split; [now rewrite C3, C2, C1|].
  split; [exact Hrows|]. split.
  - intros r. rewrite Hrows, filter_In, !andb_true_iff, !keeps_admits. tauto.
  - intros sel col r [->|Ht] Hne Hb; congruence.
Qed.

(** The sidebar filters on the sample table with "East" selected. *)
Lemma dimension_filter_membership_witness :
  exists df',
    dimension_filter sample_binding [CStr "East"] [] [] sample_frame = Ok df'
    /\ columns df' = columns sample_frame
    /\ rows df' =
         filter (fun r => keeps sample_frame [CStr "East"] (region_col sample_binding) r
                          && keeps sample_frame [] (state_col sample_binding) r
                          && keeps sample_frame [] (city_col sample_binding) r)
                (rows sample_frame)
    /\ (forall r,
          In r (rows df') <->
          In r (rows sample_frame)
          /\ admits sample_frame [CStr "East"] (region_col sample_binding) r
          /\ admits sample_frame [] (state_col sample_binding) r
          /\ admits sample_frame [] (city_col sample_binding) r)
    /\ (forall sel col r,
          sel = [] \/ truthy col = false -> admits sample_frame sel col r).
Proof.
  apply (@dimension_filter_membership sample_binding [CStr "East"] [] []
           sample_frame);
    intros c Hc Ht; simpl in Hc; inversion Hc; simpl; auto.
Defined.

(** ** Text surgery of the numeric cleaner *)

Section StringFacts.
Local Open Scope string_scope.

Lemma string_app_empty (s : string) : s ++ "" = s.
Proof.
  induction s as [|x s IH]; simpl; [reflexivity | now rewrite IH].
Qed.

Lemma remove_char_app (c : ascii) (s1 s2 : string) :
  remove_char c (s1 ++ s2) = remove_char c s1 ++ remove_char c s2.
Proof.
  induction s1 as [|x s1 IH]; simpl; [reflexivity|].
  destruct (Ascii.eqb x c); simpl; now rewrite IH.
Qed.

Lemma remove_char_absent (c : ascii) (s : string) :
  string_exists (Ascii.eqb c) s = false -> remove_char c s = s.
Proof.
  induction s as [|x s IH]; simpl; [reflexivity|].
  intros H. apply orb_false_iff in H. destruct H as [Hx Hs].
  rewrite Ascii.eqb_sym, Hx. now rewrite IH.
Qed.

Lemma remove_char_gone (c : ascii) (s : string) :
  string_exists (Ascii.eqb c) (remove_char c s) = false.
Proof.
  induction s as [|x s IH]; simpl; [reflexivity|].
  destruct (Ascii.eqb x c) eqn:E; simpl; [exact IH|].
  now rewrite Ascii.eqb_sym, E.
Qed.

Lemma remove_char_keeps_absent (p : ascii -> bool) (c : ascii) (s : string) :
  string_exists p s = false -> string_exists p (remove_char c s) = false.
Proof.
  induction s as [|x s IH]; simpl; [reflexivity|].
  intros H. apply orb_false_iff in H. destruct H as [Hx Hs].
  destruct (Ascii.eqb x c); simpl; [auto|]. rewrite Hx. auto.
Qed.








Lemma lstrip_keeps_absent (p : ascii -> bool) (s : string) :
  string_exists p s = false -> string_exists p (lstrip s) = false.
Proof.
  induction s as [|x s IH]; simpl; [reflexivity|].
  intros H. destruct (py_isspace x); [|exact H].
  apply orb_false_iff in H. now apply IH.
Qed.

Lemma rstrip_keeps_absent (p : ascii -> bool) (s : string) :
  string_exists p s = false -> string_exists p (rstrip s) = false.
Proof.
  induction s as [|x s IH]; simpl; [reflexivity|].
  intros H. apply orb_false_iff in H. destruct H as [Hx Hs].
  specialize (IH Hs). destruct (rstrip s) as [|y r].
  - destruct (py_isspace x); simpl; [reflexivity | now rewrite Hx].
  - cbn [string_exists]. rewrite Hx. exact IH.
Qed.

Lemma string_exists_or (p q : ascii -> bool) (s : string) :
  string_exists (fun x => p x || q x) s = string_exists p s || string_exists q s.
Proof.
  induction s as [|x s IH]; cbn [string_exists]; [reflexivity|].
  rewrite IH. destruct (p x), (q x), (string_exists p s); reflexivity.
Qed.

Lemma string_exists_ext (p q : ascii -> bool) (s : string) :
  (forall x, p x = q x) -> string_exists p s = string_exists q s.
Proof.
  intros H. induction s as [|x s IH]; cbn [string_exists]; [reflexivity|].
  now rewrite H, IH.
Qed.

Lemma strip_keeps_absent (p : ascii -> bool) (s : string) :
  string_exists p s = false -> string_exists p (strip s) = false.
Proof.
  intros H. unfold strip. now apply rstrip_keeps_absent, lstrip_keeps_absent.
Qed.

End StringFacts.

(** ** Assigning a column *)

Section FrameFacts.

Lemma cell_at_set_nth_same (v : cell) (r : list cell) (i : nat) :
  cell_at i (set_nth i v r) = v.
Proof.
  unfold cell_at. revert r. induction i as [|i IH]; intros [|x r]; simpl; auto.
Qed.

Lemma cell_at_set_nth_other (v : cell) (i : nat) :
  forall (r : list cell) (j : nat),
    i <> j -> cell_at j (set_nth i v r) = cell_at j r.
Proof.
  unfold cell_at. induction i as [|i IH]; intros [|x r] [|j] Hne; simpl;
    try congruence; try reflexivity.
  - now destruct j.
  - rewrite IH by congruence. now destruct j.
  - apply IH. congruence.
Qed.

Lemma zip_with_map (A B C : Type) (g : A -> B -> C) (h : A -> B) (l : list A) :
  zip_with g l (map h l) = map (fun x => g x (h x)) l.
Proof.
  induction l as [|x l IH]; simpl; [reflexivity | now rewrite IH].
Qed.

Lemma column_index_inj (cols : list string) :
  forall (c c' : string) (i : nat),
    column_index c cols = Some i -> column_index c' cols = Some i -> c = c'.
Proof.
  induction cols as [|c0 cols IH]; intros c c' i; simpl; [discriminate|].
  destruct (String.eqb_spec c0 c) as [Hc|Hc], (String.eqb_spec c0 c') as [Hc'|Hc'].
  - congruence.
  - destruct (column_index c' cols); simpl; congruence.
  - destruct (column_index c cols); simpl; congruence.
  - destruct (column_index c cols) as [a|] eqn:Ea; [|discriminate].
    destruct (column_index c' cols) as [a'|] eqn:Ea'; [|discriminate].
    simpl. intros H H'. inversion H; subst i. inversion H'; subst a'.
    eapply IH; eauto.
Qed.

(** [df[c] = f(df[c])] on a header of the table: the headers stay, and
    each row changes in column [c] only, where [f] is applied. *)
Lemma update_column_rows (f : cell -> cell) (c : string) (df : DataFrame) :
  In c (columns df) ->
  exists df' g,
    update_column f c df = Ok df'
    /\ columns df' = columns df
    /\ rows df' = map g (rows df)
    /\ (forall r, row_value df c (g r) = f (row_value df c r))
    /\ (forall r c', c' <> c -> row_value df c' (g r) = row_value df c' r).
Proof.
  intros Hc. unfold update_column, get_column, set_column, row_value.
  destruct (column_index_in c (columns df) Hc) as (i & Hi & _).
  rewrite Hi. simpl.
  eexists. exists (fun r => set_nth i (f (cell_at i r)) r).
  split; [reflexivity|]. split; [reflexivity|]. split.
  - simpl. rewrite map_map, zip_with_map. reflexivity.
  - split.
    + intros r. apply cell_at_set_nth_same.
    + intros r c' Hne. destruct (column_index c' (columns df)) as [j|] eqn:Hj;
        [|reflexivity].
      apply cell_at_set_nth_other. intros ->. apply Hne.
      eapply column_index_inj; eauto.
Qed.

Lemma get_column_map (df df' : DataFrame) (g : list cell -> list cell) (c : string) :
  columns df' = columns df -> rows df' = map g (rows df) -> In c (columns df) ->
  get_column df' c = Ok (map (fun r => row_value df c (g r)) (rows df)).
Proof.
  intros Hcols Hrows Hc.
  rewrite get_column_row_value by (now rewrite Hcols).
  rewrite Hrows, map_map. unfold row_value. now rewrite Hcols.
Qed.

End FrameFacts.

(** ** Numeric cleaning *)

Section NumericFacts.
Context {P : Pandas}.
Local Open Scope string_scope.

Lemma numeric_text_comma (s1 s2 : string) :
  numeric_text (CStr (s1 ++ "," ++ s2)) = numeric_text (CStr (s1 ++ s2)).
Proof.
  unfold numeric_text. simpl. now rewrite !remove_char_app.
Qed.

Lemma numeric_text_dollar (s1 s2 : string) :
  numeric_text (CStr (s1 ++ "$" ++ s2)) = numeric_text (CStr (s1 ++ s2)).
Proof.
  unfold numeric_text. simpl. now rewrite !remove_char_app.
Qed.


Lemma clean_numeric_cell_number (c : cell) :
  exists x, clean_numeric_cell c = CNum x.
Proof.
  unfold clean_numeric_cell, to_numeric_coerce.
  destruct (parse_number (numeric_text c)) as [x|]; simpl; eauto.
Qed.

(** The numeric assignment on a bound header: every row keeps its other
    cells and gets the cleaned cell. *)
Lemma clean_numeric_column (c : string) (df : DataFrame) :
  In c (columns df) -> truthy (Some c) = true ->
  exists df',
    update_if_bound clean_numeric_cell (Some c) df = Ok df'
    /\ columns df' = columns df
    /\ get_column df' c =
         Ok (map (fun r => clean_numeric_cell (row_value df c r)) (rows df)).
Proof.
  intros Hc Ht. unfold update_if_bound. rewrite Ht.
  destruct (@update_column_rows clean_numeric_cell c df Hc)
    as (df' & g & E & Hcols & Hrows & Hg & _).
  exists df'. split; [exact E|]. split; [exact Hcols|].
  rewrite (@get_column_map df df' g c Hcols Hrows Hc).
  f_equal. apply map_ext. intros r. apply Hg.
Qed.

End NumericFacts.



(** C10: the cleaner deletes every comma and every dollar sign of a text
    cell, wherever it stands: the result does not depend on them, and the
    text handed to the parser holds neither.  With the reference parser
    "1,2" cleans to 12 and "12$34" to 1234, not to zero. *)
Theorem numeric_cleaning_deletes_every_separator :
  (forall (P : Pandas) (s1 s2 : string),
     clean_numeric_cell (CStr (s1 ++ "," ++ s2)) = clean_numeric_cell (CStr (s1 ++ s2))
     /\ clean_numeric_cell (CStr (s1 ++ "$" ++ s2)) = clean_numeric_cell (CStr (s1 ++ s2)))
  /\ (forall (P : Pandas) (c : cell),
        string_exists (fun x => Ascii.eqb x "," || Ascii.eqb x "$") (numeric_text c)
        = false)
  /\ (forall (P : Pandas) (s : string),
        numeric_text (CStr s)
        = strip (remove_char "$" (remove_char "," s)))
  /\ @clean_numeric_cell reference_pandas (CStr "1,2") = CNum 12
  /\ @clean_numeric_cell reference_pandas (CStr "12$34") = CNum 1234
  /\ Qeq_bool 12 0 = false /\ Qeq_bool 1234 0 = false.
Proof.
  split; [|split; [|split; [|split; [|split; [|split]]]]].
  - intros P s1 s2. unfold clean_numeric_cell.
    now rewrite numeric_text_comma, numeric_text_dollar.
  - intros P c. unfold numeric_text.
    apply strip_keeps_absent.
    rewrite string_exists_or.
    rewrite (@string_exists_ext (fun x => Ascii.eqb x ",") (Ascii.eqb ","))
      by (intros x; apply Ascii.eqb_sym).
    rewrite (@string_exists_ext (fun x => Ascii.eqb x "$") (Ascii.eqb "$"))
      by (intros x; apply Ascii.eqb_sym).
    rewrite remove_char_gone.
    rewrite (remove_char_keeps_absent _ _ _ (remove_char_gone "," _)).
    reflexivity.
  - intros P s. reflexivity.
  - vm_compute. reflexivity.
  - vm_compute. reflexivity.
  - reflexivity.
  - reflexivity.
Qed.

(** ** Date cleaning and the date filter *)

Section DateFacts.

Lemma mapM_total (A B : Type) (f : A -> result B) (g : A -> B) (l : list A) :
  (forall x, In x l -> f x = Ok (g x)) -> mapM f l = Ok (map g l).
Proof.
  induction l as [|x l IH]; intros H; simpl; [reflexivity|].
  rewrite (H x (or_introl eq_refl)). simpl.
  rewrite IH by (intros y Hy; apply H; now right). reflexivity.
Qed.






Lemma to_datetime_coerce_typed {P : Pandas} (c : cell) :
  datetime_cell (to_datetime_coerce c) = true.
Proof.
  destruct c; simpl; try reflexivity.
  - now destruct (parse_datetime s).
  - now destruct (datetime_of_number x).
Qed.

End DateFacts.



(** ** File ingestion *)

Section IngestFacts.
Context {P : Pandas}.

Lemma rejected_by_evaluation (fl : UploadedFile) (d : ascii) :
  match read_csv fl d with
  | Ok df => (ncols df <=? 1)%nat
  | Raise _ => true
  end = true ->
  rejected fl d.
Proof.
  intros H df E. rewrite E in H. now apply Nat.leb_le.
Qed.

Lemma detect_delimiter_none (fl : UploadedFile) (ds : list ascii) :
  detect_delimiter fl ds = None <-> forall d, In d ds -> rejected fl d.
Proof.
  unfold rejected. induction ds as [|d ds IH]; simpl.
  - split; [intros _ d [] | reflexivity].
  - destruct (read_csv fl d) as [df|e] eqn:E.
    + destruct (Nat.ltb_spec 1 (ncols df)) as [Hlt|Hle].
      * split; [discriminate|]. intros H.
        specialize (H d (or_introl eq_refl) df E). lia.
      * rewrite IH. split.
        -- intros H d' [<-|Hd'] df'; [|now apply H].
           rewrite E. intros Heq. inversion Heq; subst. exact Hle.
        -- intros H d' Hd'. apply H. now right.
    + rewrite IH. split.
      * intros H d' [<-|Hd'] df'; [|now apply H]. rewrite E. discriminate.
      * intros H d' Hd'. apply H. now right.
Qed.

Lemma detect_delimiter_some (fl : UploadedFile) (ds : list ascii) (df : DataFrame) :
  detect_delimiter fl ds = Some df <->
  exists pre d post,
    ds = pre ++ d :: post
    /\ (forall d', In d' pre -> rejected fl d')
    /\ read_csv fl d = Ok df /\ (1 < ncols df)%nat.
Proof.
  induction ds as [|d ds IH]; simpl.
  - split; [discriminate|]. intros (pre & d & post & H & _).
    destruct pre; discriminate.
  - assert (Hrej : rejected fl d -> forall pre d0 post,
               d :: ds = pre ++ d0 :: post ->
               read_csv fl d0 = Ok df -> (1 < ncols df)%nat ->
               exists pre', pre = d :: pre' /\ ds = pre' ++ d0 :: post).
    { intros Hr [|x pre] d0 post Heq Hd0 Hc; simpl in Heq; inversion Heq; subst.
      - specialize (Hr df Hd0). lia.
      - eauto. }
    assert (Hstep : rejected fl d ->
              (detect_delimiter fl ds = Some df <->
               exists pre d0 post,
                 d :: ds = pre ++ d0 :: post
                 /\ (forall d', In d' pre -> rejected fl d')
                 /\ read_csv fl d0 = Ok df /\ (1 < ncols df)%nat)).
    { intros Hr. rewrite IH. split.
      - intros (pre & d0 & post & -> & Hpre & Hd0 & Hc).
        exists (d :: pre), d0, post. repeat split; auto.
        intros d' [<-|Hd']; auto.
      - intros (pre & d0 & post & Heq & Hpre & Hd0 & Hc).
        destruct (Hrej Hr _ _ _ Heq Hd0 Hc) as (pre' & -> & ->).
        exists pre', d0, post. repeat split; auto.
        intros d' Hd'. apply Hpre. now right. }
    destruct (read_csv fl d) as [df0|e] eqn:E.
    + destruct (Nat.ltb_spec 1 (ncols df0)) as [Hlt|Hle].
      * split.
        -- intros H. inversion H; subst.
           exists [], d, ds. repeat split; auto. intros d' [].
        -- intros ([|x pre] & d0 & post & Heq & Hpre & Hd0 & Hc);
             simpl in Heq; inversion Heq; subst.
           ++ congruence.
           ++ specialize (Hpre x (or_introl eq_refl) df0 E). lia.
      * apply Hstep. intros df' Heq. rewrite E in Heq.
        inversion Heq; subst. exact Hle.
    + apply Hstep. intros df' Heq. rewrite E in Heq. discriminate.
Qed.

End IngestFacts.

(** C6: ingestion of delimited text.  For a file name ending in "csv" or
    "txt" the delimiters comma, semicolon, tab are tried in this order,
    and the table of the first one that decodes without raising into more
    than one column is the result; this is the only way a table is
    produced.  When every delimiter is rejected, the run shows the file
    name and one blocking error message and halts: nothing else is
    rendered, whatever the widgets would answer. *)
Theorem delimiter_detection :
  forall (P : Pandas) (fl : UploadedFile),
    endswith_any (name fl) ["csv"; "txt"]%string = true ->
    delimiters = [","%char; ";"%char; ascii_of_N 9]
    /\ (forall pre d post df,
          delimiters = pre ++ d :: post ->
          (forall d', In d' pre -> rejected fl d') ->
          read_csv fl d = Ok df -> (1 < ncols df)%nat ->
          load_file fl = ([], Return df))
    /\ (forall df,
          snd (load_file fl) = Return df ->
          exists pre d post,
            delimiters = pre ++ d :: post
            /\ (forall d', In d' pre -> rejected fl d')
            /\ read_csv fl d = Ok df /\ (1 < ncols df)%nat)
    /\ ((forall d, In d delimiters -> rejected fl d) ->
        load_file fl
        = ([ErrorBox "Could not read CSV file. Please check delimiter or file structure."],
           Stopped)
        /\ forall (B : Builtins) (F : RapidFuzz) (ui : Session),
             dashboard ui (Some fl)
             = ([Write ("**Uploaded File:** " ++ name fl);
                 ErrorBox "Could not read CSV file. Please check delimiter or file structure."],
                Stopped)).
Proof.
  intros P fl Hname. split; [reflexivity|]. split; [|split].
  - intros pre d post df Heq Hpre Hd Hc. unfold load_file. rewrite Hname.
    assert (H : detect_delimiter fl delimiters = Some df).
    { apply detect_delimiter_some. exists pre, d, post. auto. }
    now rewrite H.
  - intros df. unfold load_file. rewrite Hname.
    destruct (detect_delimiter fl delimiters) as [df0|] eqn:E; simpl.
    + intros H. inversion H; subst. now apply detect_delimiter_some.
    + discriminate.
  - intros Hall. apply detect_delimiter_none in Hall.
    assert (Hload : load_file fl
        = ([ErrorBox "Could not read CSV file. Please check delimiter or file structure."],
           Stopped)).
    { unfold load_file. rewrite Hname, Hall. reflexivity. }
    split; [exact Hload|].
    intros B F ui. unfold dashboard. unfold then_ at 1. simpl.
    unfold then_ at 1. rewrite Hload. reflexivity.
Qed.

(** Ingestion of a semicolon-separated file and of a file that no
    delimiter splits, with the reference decoder. *)
Lemma delimiter_detection_witness :
  (@load_file reference_pandas semicolon_file
   = ([], Return {| columns := ["Sales"; "Region"]%string;
                    rows := [[CStr "100"; CStr "East"]] |}))
  /\ (@dashboard latin1_builtins indel_rapidfuzz reference_pandas untouched
        (Some one_column_file)
      = ([Write ("**Uploaded File:** " ++ name one_column_file);
          ErrorBox "Could not read CSV file. Please check delimiter or file structure."],
         Stopped)).
Proof.
  split.
  - apply (proj1 (proj2 (@delimiter_detection reference_pandas semicolon_file
                           eq_refl))
             [","%char] ";"%char [ascii_of_N 9]).
    + reflexivity.
    + intros d' [<-|[]]. now apply rejected_by_evaluation.
    + vm_compute. reflexivity.
    + unfold ncols. simpl. lia.
  - apply (proj2 (proj2 (proj2 (@delimiter_detection reference_pandas
                                  one_column_file eq_refl)))).
    intros d [<-|[<-|[<-|[]]]]; now apply rejected_by_evaluation.
Defined.

(** ** Export *)

(** C7 (the code departs from it): the download is not the table the
    filters produced.  On the sample file the filtered table has the
    three columns of the file, and the exported text is the CSV of that
    table with a fourth column, "Month_Year", which the "Sales Over Time"
    block wrote into [filtered_df] before the download button was built.
    On a file without a date column that block is skipped and the export
    is the CSV of the filtered table. *)
Theorem export_carries_month_year_column :
  (exists raw fdf,
     @load_file reference_pandas sample_file = ([], Return raw)
     /\ @detect_columns latin1_builtins indel_rapidfuzz (columns raw)
        = Ok sample_binding
     /\ @filtered_table reference_pandas untouched sample_binding raw = Ok fdf
     /\ columns fdf = ["Order Date"; "Sales"; "Region"]%string
     /\ exported (fst (@dashboard latin1_builtins indel_rapidfuzz reference_pandas
                         untouched (Some sample_file)))
        = [encode_utf8
             (@to_csv reference_pandas
                (set_column fdf "Month_Year"
                   [CStr "2023-01"; CStr "2023-02"; CStr "2023-01"]))]
     /\ exported (fst (@dashboard latin1_builtins indel_rapidfuzz reference_pandas
                         untouched (Some sample_file)))
        = [("Order Date,Sales,Region,Month_Year" ++ newline
            ++ "2023-01-05,100,East,2023-01" ++ newline
            ++ "2023-02-07,250,West,2023-02" ++ newline
            ++ "2023-01-09,50,East,2023-01" ++ newline)%string]
     /\ encode_utf8 (@to_csv reference_pandas fdf)
        = ("Order Date,Sales,Region" ++ newline
           ++ "2023-01-05,100,East" ++ newline
           ++ "2023-02-07,250,West" ++ newline
           ++ "2023-01-09,50,East" ++ newline)%string)
  /\ (exists raw b fdf,
        @load_file reference_pandas undated_file = ([], Return raw)
        /\ @detect_columns latin1_builtins indel_rapidfuzz (columns raw) = Ok b
        /\ @filtered_table reference_pandas untouched b raw = Ok fdf
        /\ exported (fst (@dashboard latin1_builtins indel_rapidfuzz reference_pandas
                            untouched (Some undated_file)))
           = [encode_utf8 (@to_csv reference_pandas fdf)]).
Proof.
  split.
  - eexists. eexists.
    split; [vm_compute; reflexivity|].
    split; [vm_compute; reflexivity|].
    split; [vm_compute; reflexivity|].
    repeat split; vm_compute; reflexivity.
  - eexists. eexists. eexists.
    split; [vm_compute; reflexivity|].
    split; [vm_compute; reflexivity|].
    split; vm_compute; reflexivity.
Qed.

(** ** Re-cleaning numbers *)

Section RecleanFacts.
Context {P : Pandas}.

Lemma numeric_text_plain (x : Q) :
  plain_text (str_of_number x) -> numeric_text (CNum x) = str_of_number x.
Proof.
  intros (Hc & Hd & Hs). unfold numeric_text. simpl.
  now rewrite (remove_char_absent _ _ Hc), (remove_char_absent _ _ Hd).
Qed.

Lemma clean_numeric_cell_pure (x : Q) :
  pure_number x -> clean_numeric_cell (CNum x) = CNum x.
Proof.
  intros [Hp Hr]. unfold clean_numeric_cell, to_numeric_coerce.
  now rewrite (@numeric_text_plain x Hp), Hr.
Qed.

End RecleanFacts.

(** ** The reference printer and parser on integers *)

Section ReferenceNumbers.
Local Open Scope N_scope.

Lemma digit_value_digit_char (d : N) :
  d < 10 -> digit_value (digit_char d) = Some d.
Proof.
  intros Hd. unfold digit_value, digit_char, char_code.
  rewrite N_ascii_embedding by lia.
  destruct (N.leb_spec 48 (48 + d)); [|lia].
  destruct (N.leb_spec (48 + d) 57); [|lia].
  cbn [andb]. f_equal. lia.
Qed.

Lemma pow10_pos (w : nat) : 0 < 10 ^ N.of_nat w.
Proof.
  apply N.neq_0_lt_0, N.pow_nonzero. lia.
Qed.

Lemma pow10_succ (w : nat) : 10 ^ N.of_nat (S w) = 10 * 10 ^ N.of_nat w.
Proof.
  now rewrite Nat2N.inj_succ, N.pow_succ_r'.
Qed.

Lemma leading_digit (w : nat) (n : N) :
  n < 10 ^ N.of_nat (S w) -> n / 10 ^ N.of_nat w < 10.
Proof.
  intros Hn. rewrite pow10_succ in Hn.
  apply N.Div0.div_lt_upper_bound. lia.
Qed.

(** Reading back a number written with a fixed number of digits. *)
Lemma read_digits_fixed (w : nat) :
  forall (n acc : N) (count : nat) (rest : string),
    n < 10 ^ N.of_nat w ->
    match rest with
    | EmptyString => True
    | String x _ => digit_value x = None
    end ->
    read_digits (digits_fixed w n ++ rest) acc count
    = (acc * 10 ^ N.of_nat w + n, (count + w)%nat, rest).
Proof.
  induction w as [|w IH]; intros n acc count rest Hn Hrest.
  - simpl in Hn. assert (n = 0) by lia. subst n. simpl.
    replace (acc * 1 + 0) with acc by lia. rewrite Nat.add_0_r.
    destruct rest as [|x rest]; simpl; [reflexivity | now rewrite Hrest].
  - cbn [digits_fixed String.append read_digits].
    rewrite (@digit_value_digit_char _ (@leading_digit w n Hn)).
    rewrite IH by (try apply N.mod_lt; auto; pose proof (pow10_pos w); lia).
    f_equal. f_equal; [|lia].
    rewrite pow10_succ.
    pose proof (N.div_mod n (10 ^ N.of_nat w)) as Hdm.
    pose proof (pow10_pos w). nia.
Qed.

Lemma size_nat_bound (n : N) : n < 2 ^ N.of_nat (N.size_nat n).
Proof.
  destruct n as [|p]; [reflexivity|]. simpl N.size_nat.
  induction p as [p IH|p IH|]; simpl Pos.size_nat.
  - rewrite Nat2N.inj_succ, N.pow_succ_r'. lia.
  - rewrite Nat2N.inj_succ, N.pow_succ_r'. lia.
  - reflexivity.
Qed.

Lemma fitting_width_fits (n : N) (fuel : nat) :
  forall w, n < 10 ^ N.of_nat (w + fuel) ->
            n < 10 ^ N.of_nat (fitting_width n w fuel).
Proof.
  induction fuel as [|fuel IH]; intros w Hn; simpl.
  - rewrite Nat.add_0_r in Hn. now destruct (n <? 10 ^ N.of_nat w).
  - destruct (N.ltb_spec n (10 ^ N.of_nat w)); [assumption|].
    apply IH. now rewrite Nat.add_succ_l, <- Nat.add_succ_r.
Qed.

Lemma fitting_width_from (n : N) (fuel : nat) :
  forall w, (w <= fitting_width n w fuel)%nat.
Proof.
  induction fuel as [|fuel IH]; intros w; simpl.
  - now destruct (n <? 10 ^ N.of_nat w).
  - destruct (n <? 10 ^ N.of_nat w); [lia|].
    specialize (IH (S w)). lia.
Qed.

(** [natural_text] writes [n] in some positive number of digits that
    hold it. *)
Lemma natural_text_width (n : N) :
  exists w, natural_text n = digits_fixed (S w) n /\ n < 10 ^ N.of_nat (S w).
Proof.
  unfold natural_text.
  pose proof (fitting_width_from n (N.size_nat n) 1) as Hpos.
  assert (Hfit : n < 10 ^ N.of_nat (fitting_width n 1 (N.size_nat n))).
  { apply fitting_width_fits.
    eapply N.lt_le_trans; [apply size_nat_bound|].
    etransitivity; [apply N.pow_le_mono_l with (b := 10); lia|].
    apply N.pow_le_mono_r; lia. }
  destruct (fitting_width n 1 (N.size_nat n)) as [|w]; [lia|].
  exists w. auto.
Qed.

Lemma natural_text_read (n : N) :
  exists w, read_digits (natural_text n) 0 0 = (n, S w, EmptyString).
Proof.
  destruct (natural_text_width n) as (w & -> & Hn). exists w.
  rewrite <- (string_app_empty (digits_fixed (S w) n)).
  rewrite (@read_digits_fixed (S w) n 0 0%nat EmptyString Hn I).
  f_equal; f_equal; lia.
Qed.

Lemma digits_fixed_numeral (w : nat) :
  forall n, n < 10 ^ N.of_nat w -> numeral (digits_fixed w n) = true.
Proof.
  induction w as [|w IH]; intros n Hn; [reflexivity|].
  cbn [digits_fixed numeral]. unfold numeral_char.
  rewrite (@digit_value_digit_char _ (@leading_digit w n Hn)). simpl.
  apply IH, N.mod_lt. pose proof (pow10_pos w). lia.
Qed.

Lemma numeral_char_plain (x : ascii) :
  numeral_char x = true ->
  Ascii.eqb "," x = false /\ Ascii.eqb "$" x = false /\ py_isspace x = false.
Proof.
  destruct x as [[] [] [] [] [] [] [] []]; vm_compute; intros H;
    try discriminate H; auto.
Qed.

Lemma lstrip_no_space (s : string) :
  string_exists py_isspace s = false -> lstrip s = s.
Proof.
  destruct s as [|x s]; simpl; [reflexivity|].
  intros H. apply orb_false_iff in H. destruct H as [-> _]. reflexivity.
Qed.

Lemma rstrip_no_space (s : string) :
  string_exists py_isspace s = false -> rstrip s = s.
Proof.
  induction s as [|x s IH]; simpl; [reflexivity|].
  intros H. apply orb_false_iff in H. destruct H as [Hx Hs].
  rewrite (IH Hs), Hx. now destruct s.
Qed.

(** A numeral is a text the cleaner leaves as it is. *)
Lemma numeral_plain (s : string) : numeral s = true -> plain_text s.
Proof.
  intros H.
  assert (Hall : string_exists (Ascii.eqb ",") s = false
                 /\ string_exists (Ascii.eqb "$") s = false
                 /\ string_exists py_isspace s = false).
  { induction s as [|x s IH]; cbn [string_exists]; [auto|].
    cbn [numeral] in H. apply andb_true_iff in H. destruct H as [Hx Hs].
    destruct (numeral_char_plain x Hx) as (-> & -> & ->).
    cbn [orb]. now apply IH. }
  destruct Hall as (Hc & Hd & Hw). split; [exact Hc|]. split; [exact Hd|].
  unfold strip. now rewrite (lstrip_no_space _ Hw), (rstrip_no_space _ Hw).
Qed.

Lemma numeral_app (s t : string) :
  numeral s = true -> numeral t = true -> numeral (s ++ t) = true.
Proof.
  induction s as [|x s IH]; simpl; [auto|].
  intros H Ht. apply andb_true_iff in H. destruct H as [-> Hs]. simpl. auto.
Qed.

Lemma natural_text_numeral (n : N) : numeral (natural_text n) = true.
Proof.
  destruct (natural_text_width n) as (w & -> & Hn).
  now apply digits_fixed_numeral.
Qed.

Lemma digit_char_not_sign (d : N) :
  d < 10 ->
  Ascii.eqb (digit_char d) "-" = false /\ Ascii.eqb (digit_char d) "+" = false.
Proof.
  intros Hd. split.
  - destruct (Ascii.eqb_spec (digit_char d) "-") as [E|_]; [|reflexivity].
    apply (f_equal N_of_ascii) in E. unfold digit_char in E.
    rewrite N_ascii_embedding in E by lia.
    change (N_of_ascii "-") with 45 in E. lia.
  - destruct (Ascii.eqb_spec (digit_char d) "+") as [E|_]; [|reflexivity].
    apply (f_equal N_of_ascii) in E. unfold digit_char in E.
    rewrite N_ascii_embedding in E by lia.
    change (N_of_ascii "+") with 43 in E. lia.
Qed.

Lemma Qred_integer (z : Z) : Qred (inject_Z z) = inject_Z z.
Proof.
  unfold Qred, inject_Z.
  pose proof (Z.ggcd_gcd z 1) as Hg.
  pose proof (Z.ggcd_correct_divisors z 1) as Hd.
  destruct (Z.ggcd z 1) as [g [aa bb]]. simpl in *.
  rewrite Z.gcd_1_r in Hg. subst g. destruct Hd as [Ha Hb].
  rewrite Z.mul_1_l in Ha, Hb. subst aa bb. reflexivity.
Qed.

(** The text of an integer: a minus sign when negative, then the
    digits. *)
Lemma decimal_text_integer (z : Z) :
  decimal_text (inject_Z z)
  = ((if (z <? 0)%Z then "-" else "") ++ natural_text (Z.abs_N z))%string.
Proof.
  unfold decimal_text. rewrite Qred_integer. cbn [Qnum Qden inject_Z].
  change (decimal_places 1 0 (Pos.size_nat 1)) with (Some 0).
  cbv iota. change (0 =? 0) with true. cbv iota.
  change (10 ^ 0 / 1) with 1. change (10 ^ 0) with 1.
  now rewrite N.mul_1_r, N.div_1_r.
Qed.

(** The reference parser reads an integer's text back as the integer. *)
Lemma decimal_literal_integer (z : Z) :
  decimal_literal (decimal_text (inject_Z z)) = Some (inject_Z z).
Proof.
  rewrite decimal_text_integer.
  destruct (natural_text_read (Z.abs_N z)) as (w & Hread).
  assert (Hsign : read_sign ((if (z <? 0)%Z then "-" else "")
                             ++ natural_text (Z.abs_N z))
                  = ((z <? 0)%Z, natural_text (Z.abs_N z))).
  { destruct (z <? 0)%Z; [reflexivity|]. simpl.
    destruct (natural_text_width (Z.abs_N z)) as (w' & -> & Hn).
    cbn [digits_fixed read_sign].
    destruct (@digit_char_not_sign _ (@leading_digit w' _ Hn)) as [-> ->].
    reflexivity. }
  unfold decimal_literal. rewrite Hsign, Hread. cbn [Nat.add].
  cbn [read_exponent Z.of_nat Z.sub Z.opp Z.add].
  f_equal.
  rewrite (Qred_complete _ (inject_Z (signed (z <? 0)%Z (Z.abs_N z)))).
  - rewrite Qred_integer. f_equal. unfold signed.
    rewrite N2Z.inj_abs_N. destruct (Z.ltb_spec z 0); lia.
  - change (10 ^ 0)%Q with 1%Q. apply Qmult_1_r.
Qed.

Lemma reference_integer_pure (z : Z) :
  @pure_number reference_pandas (inject_Z z).
Proof.
  split.
  - apply numeral_plain. simpl str_of_number. rewrite decimal_text_integer.
    apply numeral_app; [now destruct (z <? 0)%Z | apply natural_text_numeral].
  - apply decimal_literal_integer.
Qed.

End ReferenceNumbers.

(** ** The reference printer and parser on decimals *)

Section DecimalPlaces.
Local Open Scope N_scope.

Lemma coprime_divides_pow (d : N) (j : nat) :
  N.gcd d 10 = 1 -> (d | 10 ^ N.of_nat j) -> d = 1.
Proof.
  intros Hg. induction j as [|j IH]; intros Hd.
  - simpl in Hd. apply N.divide_1_r in Hd. exact Hd.
  - rewrite pow10_succ in Hd. apply IH. eapply N.gauss; eauto.
Qed.

(** A divisor of a power of ten divides the power of ten whose exponent is
    the divisor's size in bits. *)
Lemma pow10_divisor_bound (s : nat) :
  forall d, 0 < d -> d < 2 ^ N.of_nat s ->
            (exists j, (d | 10 ^ N.of_nat j)) -> (d | 10 ^ N.of_nat s).
Proof.
  induction s as [|s IH]; intros d Hpos Hlt [j Hj].
  - simpl in Hlt. lia.
  - destruct (N.eq_dec d 1) as [->|Hne]; [apply N.divide_1_l|].
    assert (Hg : N.gcd d 10 <> 1).
    { intros Hg. apply Hne. eapply coprime_divides_pow; eauto. }
    destruct (N.gcd_divide_l d 10) as [d' Hd'].
    destruct (N.gcd_divide_r d 10) as [t Ht].
    set (g := N.gcd d 10) in *.
    assert (Hg0 : g <> 0) by (intros E; rewrite E in Ht; lia).
    assert (Hg2 : 2 <= g) by lia.
    assert (Hd'pos : 0 < d') by (destruct d'; lia).
    rewrite Nat2N.inj_succ, N.pow_succ_r' in Hlt.
    assert (Hd'lt : d' < 2 ^ N.of_nat s) by nia.
    assert (Hd'div : (d' | 10 ^ N.of_nat s)).
    { apply IH; auto. exists j.
      eapply N.divide_trans; [|exact Hj]. exists g. lia. }
    rewrite pow10_succ, Hd'.
    assert (Hg10 : (g | 10)) by (exists t; lia).
    destruct Hd'div as [u Hu]. destruct Hg10 as [v Hv].
    exists (u * v). rewrite Hu, Hv. lia.
Qed.

Lemma decimal_places_some (d : N) (fuel : nat) :
  forall k k', decimal_places d k fuel = Some k' -> 10 ^ k' mod d = 0.
Proof.
  induction fuel as [|fuel IH]; intros k k'; simpl.
  - destruct (N.eqb_spec (10 ^ k mod d) 0); [|discriminate].
    intros H. inversion H; subst. assumption.
  - destruct (N.eqb_spec (10 ^ k mod d) 0).
    + intros H. inversion H; subst. assumption.
    + apply IH.
Qed.

Lemma decimal_places_found (d : N) (fuel : nat) :
  forall k, 10 ^ (k + N.of_nat fuel) mod d = 0 ->
            exists k', decimal_places d k fuel = Some k'.
Proof.
  induction fuel as [|fuel IH]; intros k H; simpl.
  - rewrite N.add_0_r in H. rewrite H. simpl. eauto.
  - destruct (10 ^ k mod d =? 0); [eauto|].
    apply IH. rewrite Nat2N.inj_succ in H.
    now replace (k + 1 + N.of_nat fuel) with (k + N.succ (N.of_nat fuel)) by lia.
Qed.

(** The printer finds the decimals of a number that has a finite decimal
    expansion. *)
Lemma decimal_places_total (d : positive) :
  (exists j, (Npos d | 10 ^ N.of_nat j)) ->
  exists k, decimal_places (Npos d) 0 (Pos.size_nat d) = Some k
            /\ (Npos d | 10 ^ k).
Proof.
  intros Hj.
  assert (Hdiv : (Npos d | 10 ^ N.of_nat (Pos.size_nat d))).
  { apply pow10_divisor_bound; [lia | apply (size_nat_bound (Npos d)) | exact Hj]. }
  destruct (@decimal_places_found (Npos d) (Pos.size_nat d) 0) as [k Hk].
  { rewrite N.add_0_l. now apply N.Lcm0.mod_divide. }
  exists k. split; [exact Hk|].
  apply N.Lcm0.mod_divide. eapply decimal_places_some; eauto.
Qed.

End DecimalPlaces.

Section DecimalParts.

Lemma Qred_twice (x : Q) : Qred (Qred x) = Qred x.
Proof.
  apply Qred_complete, Qred_correct.
Qed.

(** A signed mantissa over a power of ten, as a fraction. *)
Lemma scaled_mantissa (s : Z) (k : N) (p : positive) :
  Zpos p = (10 ^ Z.of_N k)%Z ->
  inject_Z s * 10 ^ (- Z.of_N k) == s # p.
Proof.
  intros Hp. rewrite Qpower_opp.
  rewrite <- (Zpower_Qpower 10 (Z.of_N k)) by lia.
  rewrite <- Hp. symmetry. apply Qmake_Qdiv.
Qed.

Local Open Scope N_scope.

Lemma natural_text_read_before (n : N) (rest : string) :
  match rest with
  | EmptyString => True
  | String x _ => digit_value x = None
  end ->
  exists w, read_digits (natural_text n ++ rest) 0 0 = (n, S w, rest).
Proof.
  intros Hrest. destruct (natural_text_width n) as (w & -> & Hn). exists w.
  rewrite (@read_digits_fixed (S w) n 0 0%nat rest Hn Hrest).
  f_equal; f_equal; lia.
Qed.

Lemma read_sign_text (neg : bool) (n : N) (rest : string) :
  read_sign ((if neg then "-" else "") ++ natural_text n ++ rest)
  = (neg, (natural_text n ++ rest)%string).
Proof.
  destruct neg; [reflexivity|]. simpl.
  destruct (natural_text_width n) as (w & -> & Hn).
  cbn [digits_fixed String.append read_sign].
  destruct (@digit_char_not_sign _ (@leading_digit w _ Hn)) as [-> ->].
  reflexivity.
Qed.

End DecimalParts.

Section DecimalRoundTrip.

Lemma decimal_text_form (x : Q) (k : N) :
  decimal_places (Npos (Qden (Qred x))) 0 (Pos.size_nat (Qden (Qred x))) = Some k ->
  decimal_text x
  = ((if (Qnum (Qred x) <? 0)%Z then "-" else "")
     ++ natural_text
          ((Z.abs_N (Qnum (Qred x)) * (10 ^ k / Npos (Qden (Qred x)))) / 10 ^ k)
     ++ (if (k =? 0)%N then ""
         else "." ++ digits_fixed (N.to_nat k)
                       ((Z.abs_N (Qnum (Qred x)) * (10 ^ k / Npos (Qden (Qred x))))
                        mod 10 ^ k)))%string%N.
Proof.
  intros Hk. unfold decimal_text. rewrite Hk.
  destruct (k =? 0)%N; [|reflexivity].
  now rewrite string_app_empty.
Qed.

(** The value of the mantissa the printer writes. *)
Lemma mantissa_value (num : Z) (d : positive) (k : N) :
  (Npos d | 10 ^ k)%N ->
  (signed (num <? 0)%Z (Z.abs_N num * (10 ^ k / Npos d)) * Zpos d
   = num * 10 ^ Z.of_N k)%Z.
Proof.
  intros [c Hc].
  assert (Hdiv : (10 ^ k / Npos d = c)%N).
  { rewrite Hc. apply N.div_mul. discriminate. }
  rewrite Hdiv. unfold signed.
  assert (Hz : (10 ^ Z.of_N k = Z.of_N c * Zpos d)%Z).
  { change (10 ^ Z.of_N k)%Z with (Z.of_N 10 ^ Z.of_N k)%Z.
    rewrite <- N2Z.inj_pow, Hc, N2Z.inj_mul. reflexivity. }
  rewrite Hz, N2Z.inj_mul, N2Z.inj_abs_N.
  destruct (Z.ltb_spec num 0); lia.
Qed.

Lemma decimal_roundtrip (x : Q) :
  (exists j, (Npos (Qden (Qred x)) | 10 ^ N.of_nat j)%N) ->
  decimal_literal (decimal_text x) = Some (Qred x).
Proof.
  intros Hdec.
  destruct (decimal_places_total Hdec) as (k & Hk & Hdiv).
  rewrite (decimal_text_form x Hk).
  set (num := Qnum (Qred x)) in *. set (d := Qden (Qred x)) in *.
  set (m := (Z.abs_N num * (10 ^ k / Npos d))%N).
  assert (Hp : (0 < 10 ^ k)%N) by (apply N.neq_0_lt_0, N.pow_nonzero; discriminate).
  assert (Hval : Qred (inject_Z (signed (num <? 0)%Z m) * 10 ^ (- Z.of_N k))
                 = Qred x).
  { apply Qred_complete.
    rewrite (@scaled_mantissa _ k (Z.to_pos (10 ^ Z.of_N k)))
      by (rewrite Z2Pos.id; [reflexivity | apply Z.pow_pos_nonneg; lia]).
    rewrite <- (Qred_correct x). unfold Qeq. cbn [Qnum Qden].
    rewrite Z2Pos.id by (apply Z.pow_pos_nonneg; lia).
    fold num. fold d. apply mantissa_value. exact Hdiv. }
  unfold decimal_literal. rewrite read_sign_text.
  destruct (N.eqb_spec k 0) as [Hk0|Hk0].
  - destruct (@natural_text_read_before (m / 10 ^ k)%N EmptyString I) as (w & Hr).
    rewrite Hr. cbn [Nat.add read_exponent].
    rewrite <- Hval. subst k.
    change (10 ^ 0)%N with 1%N. rewrite N.div_1_r. reflexivity.
  - set (frac := digits_fixed (N.to_nat k) (m mod 10 ^ k)).
    destruct (@natural_text_read_before (m / 10 ^ k)%N ("." ++ frac) eq_refl)
      as (w & Hr).
    rewrite Hr. cbn [String.append].
    change (Ascii.eqb "." ".") with true. cbv iota.
    unfold frac. rewrite <- (string_app_empty (digits_fixed _ _)).
    rewrite (@read_digits_fixed (N.to_nat k) (m mod 10 ^ k) (m / 10 ^ k) 0%nat
               EmptyString)
      by (try exact I; rewrite N2Nat.id; apply N.mod_lt; lia).
    rewrite N2Nat.id.
    replace (m / 10 ^ k * 10 ^ k + m mod 10 ^ k)%N with m
      by (rewrite (N.div_mod m (10 ^ k)) at 1; lia).
    replace (S w + (0 + N.to_nat k))%nat with (S (w + N.to_nat k)) by lia.
    cbn [read_exponent]. rewrite <- Hval.
    replace (0 - Z.of_nat (0 + N.to_nat k))%Z with (- Z.of_N k)%Z
      by (rewrite Nat.add_0_l, N_nat_Z; lia).
    reflexivity.
Qed.

End DecimalRoundTrip.

Section ReferenceIdempotence.

Lemma decimal_text_numeral (x : Q) :
  (exists j, (Npos (Qden (Qred x)) | 10 ^ N.of_nat j)%N) ->
  numeral (decimal_text x) = true.
Proof.
  intros Hdec.
  destruct (decimal_places_total Hdec) as (k & Hk & Hdiv).
  rewrite (decimal_text_form x Hk).
  apply numeral_app; [now destruct (Qnum (Qred x) <? 0)%Z|].
  apply numeral_app; [apply natural_text_numeral|].
  destruct (k =? 0)%N; [reflexivity|].
  change (numeral_char "." && numeral (digits_fixed (N.to_nat k)
            ((Z.abs_N (Qnum (Qred x)) * (10 ^ k / N.pos (Qden (Qred x))))
             mod 10 ^ k)%N) = true).
  change (numeral_char ".") with true. cbn [andb].
  apply digits_fixed_numeral. rewrite N2Nat.id. apply N.mod_lt.
  apply N.pow_nonzero. discriminate.
Qed.

(** A reduced number with a finite decimal expansion is a pure number of
    the reference printer and parser. *)
Lemma reference_decimal_pure (x : Q) :
  (exists j, (Npos (Qden (Qred x)) | 10 ^ N.of_nat j)%N) ->
  @pure_number reference_pandas (Qred x).
Proof.
  intros Hdec.
  assert (Hdec' : exists j, (Npos (Qden (Qred (Qred x))) | 10 ^ N.of_nat j)%N)
    by now rewrite Qred_twice.
  split.
  - apply numeral_plain. now apply decimal_text_numeral.
  - simpl. rewrite (@decimal_roundtrip (Qred x) Hdec'). now rewrite Qred_twice.
Qed.

Lemma Qred_den_divides (a : Z) (b : positive) :
  (Zpos (Qden (Qred (a # b))) | Zpos b)%Z.
Proof.
  unfold Qred.
  pose proof (Z.ggcd_gcd a (Zpos b)) as Hg.
  pose proof (Z.ggcd_correct_divisors a (Zpos b)) as Hd.
  destruct (Z.ggcd a (Zpos b)) as [g [aa bb]]. simpl in *.
  destruct Hd as [_ Hb].
  assert (Hbb : (0 < bb)%Z).
  { pose proof (Z.gcd_nonneg a (Zpos b)). nia. }
  rewrite Z2Pos.id by exact Hbb. exists g. lia.
Qed.

(** What the reference parser reads has a finite decimal expansion. *)
Lemma decimal_literal_finite (s : string) (y : Q) :
  decimal_literal s = Some y ->
  exists x, y = Qred x /\ exists j, (Npos (Qden (Qred x)) | 10 ^ N.of_nat j)%N.
Proof.
  unfold decimal_literal.
  destruct (read_sign s) as [neg s1].
  destruct (read_digits s1 0 0) as [[ip ni] s2].
  destruct (match s2 with
            | EmptyString => (ip, 0%nat, s2)
            | String c s2' =>
                if Ascii.eqb c "." then read_digits s2' ip 0 else (ip, 0%nat, s2)
            end) as [[m nf] s3].
  destruct (ni + nf)%nat; [discriminate|].
  destruct (read_exponent s3) as [e|]; [|discriminate].
  intros H. inversion H as [Hy]. clear H Hy.
  set (sz := signed neg m). set (ex := (e - Z.of_nat nf)%Z).
  exists (inject_Z sz * 10 ^ ex). split; [reflexivity|].
  destruct (Z.le_gt_cases 0 ex) as [Hex|Hex].
  - exists 0%nat.
    assert (E : Qred (inject_Z sz * 10 ^ ex) = inject_Z (sz * 10 ^ ex)).
    { rewrite <- (Qred_integer (sz * 10 ^ ex)). apply Qred_complete.
      rewrite inject_Z_mult. now rewrite Zpower_Qpower. }
    rewrite E. simpl. apply N.divide_refl.
  - assert (Hpos : (0 < 10 ^ (- ex))%Z) by (apply Z.pow_pos_nonneg; lia).
    assert (E : Qred (inject_Z sz * 10 ^ ex)
                = Qred (sz # Z.to_pos (10 ^ (- ex)))).
    { apply Qred_complete.
      replace ex with (- Z.of_N (Z.to_N (- ex)))%Z at 1
        by (rewrite Z2N.id; lia).
      apply scaled_mantissa. rewrite Z2Pos.id, Z2N.id; auto; lia. }
    rewrite E. exists (Z.to_nat (- ex)).
    destruct (Qred_den_divides sz (Z.to_pos (10 ^ (- ex)))) as [c Hc].
    rewrite Z2Pos.id in Hc by exact Hpos.
    assert (Hc0 : (0 <= c)%Z) by nia.
    exists (Z.to_N c).
    apply N2Z.inj.
    rewrite N2Z.inj_mul, N2Z.inj_pow, nat_N_Z, Z2Nat.id, Z2N.id by lia.
    exact Hc.
Qed.

(** In the reference instance cleaning a cell twice is cleaning it
    once. *)
Lemma reference_cleaning_idempotent (c : cell) :
  @clean_numeric_cell reference_pandas (@clean_numeric_cell reference_pandas c)
  = @clean_numeric_cell reference_pandas c.
Proof.
  unfold clean_numeric_cell at 2 3. unfold to_numeric_coerce.
  destruct (parse_number (numeric_text c)) as [y|] eqn:E; simpl fillna_zero.
  - apply clean_numeric_cell_pure.
    destruct (decimal_literal_finite _ E) as (x & -> & Hdec).
    now apply reference_decimal_pure.
  - apply clean_numeric_cell_pure. apply (reference_integer_pure 0).
Qed.

End ReferenceIdempotence.

(** C8: numeric cleaning leaves pure numbers as they are.  A number cell
    whose text is plain and reads back as the same number is cleaned to
    itself, so cleaning a bound column that holds only such numbers
    returns a table whose column has the same values, and cleaning a cell
    twice gives what cleaning it once gives.  With the reference printer
    and parser every integer and every number with a finite decimal
    expansion is such a number, and so is whatever the parser reads: an
    integer cell is cleaned to itself, and cleaning any cell twice is
    cleaning it once. *)
Theorem numeric_cleaning_idempotent :
  (forall (P : Pandas),
     (forall x, pure_number x -> clean_numeric_cell (CNum x) = CNum x)
     /\ (forall (c : string) (df : DataFrame),
           In c (columns df) -> truthy (Some c) = true ->
           (forall r, In r (rows df) ->
                      exists x, row_value df c r = CNum x /\ pure_number x) ->
           exists df',
             update_if_bound clean_numeric_cell (Some c) df = Ok df'
             /\ columns df' = columns df
             /\ get_column df' c = get_column df c)
     /\ (forall (c : cell),
           (forall x, clean_numeric_cell c = CNum x -> pure_number x) ->
           clean_numeric_cell (clean_numeric_cell c) = clean_numeric_cell c))
  /\ (forall z : Z,
        @pure_number reference_pandas (inject_Z z)
        /\ @clean_numeric_cell reference_pandas (CNum (inject_Z z))
           = CNum (inject_Z z))
  /\ (forall x : Q,
        (exists j, (Npos (Qden (Qred x)) | 10 ^ N.of_nat j)%N) ->
        @pure_number reference_pandas (Qred x))
  /\ (forall c : cell,
        @clean_numeric_cell reference_pandas (@clean_numeric_cell reference_pandas c)
        = @clean_numeric_cell reference_pandas c).
Proof.
  split; [|split; [|split]].
  - intros P. split; [|split].
    + intros x. apply clean_numeric_cell_pure.
    + intros c df Hc Ht Hpure.
      destruct (@clean_numeric_column P c df Hc Ht) as (df' & E & Hcols & Hget).
      exists df'. split; [exact E|]. split; [exact Hcols|].
      rewrite Hget, (get_column_row_value df c Hc). f_equal.
      apply map_ext_in. intros r Hr.
      destruct (Hpure r Hr) as (x & -> & Hx). now apply clean_numeric_cell_pure.
    + intros c H. destruct (clean_numeric_cell_number c) as (x & Hx).
      rewrite Hx. apply clean_numeric_cell_pure. now apply H.
  - intros z. split; [apply reference_integer_pure|].
    apply clean_numeric_cell_pure, reference_integer_pure.
  - intros x. apply reference_decimal_pure.
  - apply reference_cleaning_idempotent.
Qed.

(** Re-cleaning a number with decimals and the "Sales" column of the
    cleaned sample table. *)
Lemma numeric_cleaning_idempotent_witness :
  (@clean_numeric_cell reference_pandas (CNum (2469 # 2)) = CNum (2469 # 2))
  /\ (exists df',
        update_if_bound (@clean_numeric_cell reference_pandas)
          (Some "Sales"%string) sample_frame = Ok df'
        /\ columns df' = columns sample_frame
        /\ get_column df' "Sales" = get_column sample_frame "Sales")
  /\ @pure_number reference_pandas (Qred (2469 # 2)).
Proof.
  split; [|split].
  - apply (proj1 (proj1 numeric_cleaning_idempotent reference_pandas)).
    repeat split; vm_compute; reflexivity.
  - apply (proj1 (proj2 (proj1 numeric_cleaning_idempotent reference_pandas))).
    + simpl. auto.
    + reflexivity.
    + intros r Hr. simpl in Hr.
      destruct Hr as [<-|[<-|[<-|[]]]]; eexists;
        (split; [reflexivity | repeat split; vm_compute; reflexivity]).
  - apply (proj1 (proj2 (proj2 numeric_cleaning_idempotent))).
    exists 1%nat. exists 5%N. reflexivity.
Defined.

(** ** Month keys and their order *)

Section MonthKeyFacts.
Local Open Scope N_scope.









End MonthKeyFacts.

(** ** Sorting of group keys *)

Section SortFacts.





End SortFacts.

(** ** Adding a column and grouping *)

Section GroupFacts.

Lemma column_index_app_new (c : string) (cols : list string) :
  column_index c cols = None ->
  column_index c (cols ++ [c]) = Some (List.length cols).
Proof.
  induction cols as [|c' cols IH]; simpl.
  - now rewrite String.eqb_refl.
  - destruct (String.eqb c' c); [discriminate|].
    destruct (column_index c cols); [discriminate|].
    intros _. now rewrite IH.
Qed.

Lemma column_index_app_old (c : string) (cols l : list string) (j : nat) :
  column_index c cols = Some j -> column_index c (cols ++ l) = Some j.
Proof.
  revert j. induction cols as [|c' cols IH]; simpl; intros j; [discriminate|].
  destruct (String.eqb c' c); [auto|].
  destruct (column_index c cols) as [i|]; [|discriminate].
  now rewrite (IH i eq_refl).
Qed.

(** [df[c] = series] for a series computed row by row: column [c] then
    reads as the series, and the other columns read as before. *)
Lemma set_column_read (h : list cell -> cell) (c : string) (df : DataFrame) :
  get_column (set_column df c (map h (rows df))) c = Ok (map h (rows df))
  /\ forall c', c' <> c -> In c' (columns df) ->
       get_column (set_column df c (map h (rows df))) c'
       = Ok (map (row_value df c') (rows df)).
Proof.
  unfold set_column. destruct (column_index c (columns df)) as [i|] eqn:E.
  - unfold get_column. simpl. rewrite E, zip_with_map, map_map. split.
    + f_equal. apply map_ext. intros r. apply cell_at_set_nth_same.
    + intros c' Hne Hc'.
      destruct (column_index_in c' (columns df) Hc') as (j & Hj & _).
      rewrite Hj, map_map. f_equal. apply map_ext. intros r.
      unfold row_value. rewrite Hj. apply cell_at_set_nth_other.
      intros ->. apply Hne. eapply column_index_inj; eauto.
  - unfold get_column. simpl. unfold ncols.
    rewrite (column_index_app_new _ _ E), zip_with_map, map_map. split.
    + f_equal. apply map_ext. intros r. apply cell_at_set_nth_same.
    + intros c' Hne Hc'.
      destruct (column_index_in c' (columns df) Hc') as (j & Hj & Hlt).
      rewrite (column_index_app_old _ _ [c] Hj), map_map. f_equal.
      apply map_ext. intros r.
      unfold row_value. rewrite Hj. apply cell_at_set_nth_other. lia.
Qed.






End GroupFacts.

(** ** Sales by month *)

Section TimeFacts.



End TimeFacts.



(* ================================================================== *)
(** * Part III: further properties of the script                       *)
(* ================================================================== *)

(** ** The resolver: what it binds and when it raises *)

Section ResolverMore.
Context {B : Builtins} {F : RapidFuzz}.

Lemma find_best_column_no_candidates (h : string) (H : list string) :
  find_best_column [] (h :: H) = Raise ValueError.
Proof.
  reflexivity.
Qed.

End ResolverMore.

(** X1: a role is only ever bound to a header of the table, and only to
    one whose similarity to some candidate name is above 60. *)
Theorem find_best_column_binds_a_header :
  forall (B : Builtins) (F : RapidFuzz) (C H : list string) (h : string),
    find_best_column C H = Ok (Some h) ->
    In h H /\ exists c, In c C /\ 60 < similarity h c.
Proof.
  intros B F C H h Hres.
  destruct H as [|h0 H]; [discriminate|].
  destruct C as [|c0 C]; [rewrite find_best_column_no_candidates in Hres; discriminate|].
  destruct (@find_best_column_spec B F (c0 :: C) (h0 :: H))
    as (h' & m & Hin & (c & Hc & Hm) & _ & Hr); try discriminate.
  rewrite Hr in Hres.
  destruct (Qgt_bool m 60) eqn:E; [|discriminate].
  inversion Hres; subst h'. split; [exact Hin|].
  exists c. split; [exact Hc|]. rewrite <- Hm. now apply Qgt_bool_true.
Qed.

(** The sales role on the headers of the sample file. *)
Lemma find_best_column_binds_a_header_witness :
  In "Sales"%string ["Order Date"; "Sales"; "Region"]%string
  /\ exists c, In c ["TotalSales"; "Sales"]%string
               /\ 60 < @similarity latin1_builtins indel_rapidfuzz "Sales" c.
Proof.
  apply (@find_best_column_binds_a_header latin1_builtins indel_rapidfuzz
           ["TotalSales"; "Sales"]%string
           ["Order Date"; "Sales"; "Region"]%string "Sales"%string).
  vm_compute. reflexivity.
Defined.

(** X2: the resolver raises exactly when it is given no header or no
    candidate name, and then it raises [ValueError]; the lookup
    [matches[best_match]] never fails. *)
Theorem find_best_column_raises_iff :
  forall (B : Builtins) (F : RapidFuzz) (C H : list string) (e : exn),
    find_best_column C H = Raise e <-> e = ValueError /\ (H = [] \/ C = []).
Proof.
  intros B F C H e. split.
  - intros Hres. destruct H as [|h0 H].
    + inversion Hres. auto.
    + destruct C as [|c0 C].
      * rewrite find_best_column_no_candidates in Hres. inversion Hres. auto.
      * destruct (@find_best_column_spec B F (c0 :: C) (h0 :: H))
          as (h' & m & _ & _ & _ & Hr); try discriminate.
        rewrite Hr in Hres. discriminate.
  - intros [-> [->| ->]]; [reflexivity|].
    destruct H; reflexivity.
Qed.

(** No candidate names for the headers of the sample file. *)
Lemma find_best_column_raises_iff_witness :
  @find_best_column latin1_builtins indel_rapidfuzz []
    ["Order Date"; "Sales"; "Region"]%string = Raise ValueError.
Proof.
  apply (proj2 (@find_best_column_raises_iff latin1_builtins indel_rapidfuzz []
                  ["Order Date"; "Sales"; "Region"]%string ValueError)).
  auto.
Defined.

(** ** Resolving the nine roles *)

Section DetectFacts.
Context {B : Builtins} {F : RapidFuzz}.

Lemma find_best_column_returns (C H : list string) :
  H <> [] -> C <> [] ->
  exists r, find_best_column C H = Ok r /\ forall h, r = Some h -> In h H.
Proof.
  intros HH HC.
  destruct (find_best_column_spec HH HC) as (h & m & Hin & _ & _ & Hr).
  rewrite Hr. eexists. split; [reflexivity|].
  intros h'. destruct (Qgt_bool m 60); [|discriminate].
  intros E. inversion E; subst. exact Hin.
Qed.

Lemma detect_columns_returns (cols : list string) :
  cols <> [] ->
  exists b, detect_columns cols = Ok b
            /\ forall col c, In col (roles b) -> col = Some c -> In c cols.
Proof.
  intros Hne. unfold detect_columns.
  repeat match goal with
         | |- context [find_best_column ?C cols] =>
             let r := fresh "r" in
             let E := fresh "E" in
             let Hr := fresh "Hr" in
             destruct (@find_best_column_returns C cols Hne) as (r & E & Hr);
             [discriminate|]; rewrite E; cbn [bind]
         end.
  eexists. split; [reflexivity|].
  intros col c Hin Hc. unfold roles in Hin. cbn [date_col sales_col profit_col
    product_col region_col state_col city_col retailer_col quantity_col] in Hin.
  simpl in Hin.
  repeat match type of Hin with
         | _ \/ _ => destruct Hin as [Hin|Hin]
         end;
    try contradiction; subst col; auto.
Qed.

End DetectFacts.

(** X3: resolving the roles of a table.  With at least one header the
    nine resolutions all return, and every role that is bound is bound to
    a header of the table; with no header the first resolution raises
    [ValueError]. *)
Theorem detect_columns_binds_headers :
  forall (B : Builtins) (F : RapidFuzz) (cols : list string),
    (cols = [] -> detect_columns cols = Raise ValueError)
    /\ (cols <> [] ->
        exists b, detect_columns cols = Ok b
                  /\ forall col c, In col (roles b) -> col = Some c -> In c cols).
Proof.
  intros B F cols. split; [intros ->; reflexivity|].
  apply detect_columns_returns.
Qed.

(** The roles of the headers of the sample file. *)
Lemma detect_columns_binds_headers_witness :
  exists b, @detect_columns latin1_builtins indel_rapidfuzz
              ["Order Date"; "Sales"; "Region"]%string = Ok b
            /\ forall col c, In col (roles b) -> col = Some c ->
                             In c ["Order Date"; "Sales"; "Region"]%string.
Proof.
  apply (proj2 (@detect_columns_binds_headers latin1_builtins indel_rapidfuzz
                  ["Order Date"; "Sales"; "Region"]%string)).
  discriminate.
Defined.

(** ** Ingestion and resolution together *)

(** X4: a delimited upload that loads can be resolved.  Whenever the
    delimiter loop hands on a table, the table has more than one column,
    so role detection returns a binding: the resolver's failure on an
    empty header list cannot occur for delimited text. *)
Theorem delimited_upload_resolves :
  forall (B : Builtins) (F : RapidFuzz) (P : Pandas) (fl : UploadedFile)
         (df : DataFrame),
    endswith_any (name fl) ["csv"; "txt"]%string = true ->
    snd (load_file fl) = Return df ->
    (1 < ncols df)%nat
    /\ exists b, detect_columns (columns df) = Ok b
                 /\ forall col c, In col (roles b) -> col = Some c ->
                                  In c (columns df).
Proof.
  intros B F P fl df Hname Hload. unfold load_file in Hload. rewrite Hname in Hload.
  destruct (detect_delimiter fl delimiters) as [df0|] eqn:E; [|discriminate].
  simpl in Hload. inversion Hload; subst df0.
  apply detect_delimiter_some in E.
  destruct E as (pre & d & post & _ & _ & _ & Hcols).
  split; [exact Hcols|].
  apply detect_columns_returns. unfold ncols in Hcols.
  destruct (columns df); [simpl in Hcols; lia | discriminate].
Qed.

(** The sample file loads and resolves. *)
Lemma delimited_upload_resolves_witness :
  (1 < ncols raw_sample_frame)%nat
  /\ exists b,
       @detect_columns latin1_builtins indel_rapidfuzz
         ["Order Date"; "Sales"; "Region"]%string = Ok b
       /\ forall col c, In col (roles b) -> col = Some c ->
                        In c ["Order Date"; "Sales"; "Region"]%string.
Proof.
  apply (@delimited_upload_resolves latin1_builtins indel_rapidfuzz
           reference_pandas sample_file
           raw_sample_frame).
  - reflexivity.
  - vm_compute. reflexivity.
Defined.

(** X5: a file whose name does not end in "csv" or "txt" goes to the
    spreadsheet decoder.  Whatever table the decoder returns is handed
    on, with no test on its columns; when the decoder raises, the run
    shows the file name and one error message and halts. *)
Theorem spreadsheet_upload :
  forall (P : Pandas) (fl : UploadedFile),
    endswith_any (name fl) ["csv"; "txt"]%string = false ->
    (forall df, read_excel fl = Ok df -> load_file fl = ([], Return df))
    /\ (forall e, read_excel fl = Raise e ->
          load_file fl = ([ErrorBox "Error reading file"], Stopped)
          /\ forall (B : Builtins) (F : RapidFuzz) (ui : Session),
               dashboard ui (Some fl)
               = ([Write ("**Uploaded File:** " ++ name fl);
                   ErrorBox "Error reading file"], Stopped)).
Proof.
  intros P fl Hname. split.
  - intros df E. unfold load_file. now rewrite Hname, E.
  - intros e E.
    assert (Hload : load_file fl = ([ErrorBox "Error reading file"], Stopped)).
    { unfold load_file. now rewrite Hname, E. }
    split; [exact Hload|].
    intros B F ui. unfold dashboard. unfold then_ at 1. simpl.
    unfold then_ at 1. rewrite Hload. reflexivity.
Qed.

(** A workbook with the reference instance, which has no spreadsheet
    decoder. *)
Lemma spreadsheet_upload_witness :
  @dashboard latin1_builtins indel_rapidfuzz reference_pandas untouched
    (Some workbook_file)
  = ([Write ("**Uploaded File:** " ++ name workbook_file);
      ErrorBox "Error reading file"], Stopped).
Proof.
  apply (proj2 (@spreadsheet_upload reference_pandas workbook_file eq_refl)
           DecodeFailure eq_refl).
Defined.

(** ** The cleaned table *)

Section CleanFacts.
Context {P : Pandas}.

Lemma binds_true (col : option string) (c : string) :
  binds col c = true <-> col = Some c /\ truthy col = true.
Proof.
  unfold binds. destruct col as [c'|].
  - rewrite andb_true_iff, String.eqb_eq. split.
    + intros [-> Ht]. auto.
    + intros [E Ht]. inversion E; subst. auto.
  - split; [discriminate | intros [E _]; discriminate].
Qed.

(** One conditional assignment [if col: df[col] = f(df[col])]: the
    headers stay, every row is rewritten on its own, in the bound column
    by [f] and nowhere else. *)
Lemma update_if_bound_rows (f : cell -> cell) (col : option string)
    (df : DataFrame) :
  has_header df col ->
  exists df' g,
    update_if_bound f col df = Ok df'
    /\ columns df' = columns df
    /\ rows df' = map g (rows df)
    /\ (forall r c, binds col c = true ->
                    row_value df c (g r) = f (row_value df c r))
    /\ (forall r c, binds col c = false ->
                    row_value df c (g r) = row_value df c r).
Proof.
  intros Hh. unfold update_if_bound. destruct col as [c0|].
  - destruct (truthy (Some c0)) eqn:Ht.
    + destruct (@update_column_rows f c0 df (Hh c0 eq_refl Ht))
        as (df' & g & E & Hcols & Hrows & Hsame & Hother).
      exists df', g.
      split; [exact E|]. split; [exact Hcols|]. split; [exact Hrows|]. split.
      * intros r c Hb. apply binds_true in Hb. destruct Hb as [Hb _].
        inversion Hb; subst. apply Hsame.
      * intros r c Hb. apply Hother. intros ->.
        unfold binds in Hb. now rewrite String.eqb_refl, Ht in Hb.
    + exists df, (fun r => r). rewrite map_id.
      split; [reflexivity|]. split; [reflexivity|]. split; [reflexivity|].
      split; [|reflexivity].
      intros r c Hb. unfold binds in Hb. rewrite Ht, andb_false_r in Hb.
      discriminate.
  - exists df, (fun r => r). rewrite map_id.
    split; [reflexivity|]. split; [reflexivity|]. split; [reflexivity|].
    split; [|reflexivity].
    intros r c Hb. discriminate.
Qed.

Lemma has_header_same_columns (df df' : DataFrame) (col : option string) :
  columns df' = columns df -> has_header df col -> has_header df' col.
Proof.
  intros E H c Hc Ht. rewrite E. now apply H.
Qed.

(** The whole cleaning stage as one rewriting of the rows. *)
Lemma clean_rows (b : Binding) (df : DataFrame) :
  has_header df (date_col b) -> has_header df (sales_col b) ->
  has_header df (profit_col b) -> has_header df (quantity_col b) ->
  exists df' g0 g1 g2 g3,
    clean b df = Ok df'
    /\ columns df' = columns df
    /\ rows df' = map (fun r => g3 (g2 (g1 (g0 r)))) (rows df)
    /\ (forall r c, row_value df c (g0 r)
                    = if binds (date_col b) c
                      then to_datetime_coerce (row_value df c r)
                      else row_value df c r)
    /\ (forall r c, row_value df c (g1 r)
                    = if binds (sales_col b) c
                      then clean_numeric_cell (row_value df c r)
                      else row_value df c r)
    /\ (forall r c, row_value df c (g2 r)
                    = if binds (profit_col b) c
                      then clean_numeric_cell (row_value df c r)
                      else row_value df c r)
    /\ (forall r c, row_value df c (g3 r)
                    = if binds (quantity_col b) c
                      then clean_numeric_cell (row_value df c r)
                      else row_value df c r).
Proof.
  intros Hd Hs Hp Hq. unfold clean, clean_dates. cbn [clean_numeric].
  destruct (@update_if_bound_rows to_datetime_coerce (date_col b) df Hd)
    as (df0 & g0 & E0 & C0 & R0 & T0 & F0).
  rewrite E0. cbn [bind].
  destruct (@update_if_bound_rows clean_numeric_cell (sales_col b) df0
              (@has_header_same_columns df df0 (sales_col b) C0 Hs))
    as (df1 & g1 & E1 & C1 & R1 & T1 & F1).
  rewrite E1. cbn [bind].
  assert (C1' : columns df1 = columns df) by congruence.
  destruct (@update_if_bound_rows clean_numeric_cell (profit_col b) df1
              (@has_header_same_columns df df1 (profit_col b) C1' Hp))
    as (df2 & g2 & E2 & C2 & R2 & T2 & F2).
  rewrite E2. cbn [bind].
  assert (C2' : columns df2 = columns df) by congruence.
  destruct (@update_if_bound_rows clean_numeric_cell (quantity_col b) df2
              (@has_header_same_columns df df2 (quantity_col b) C2' Hq))
    as (df3 & g3 & E3 & C3 & R3 & T3 & F3).
  rewrite E3. cbn [bind].
  exists df3, g0, g1, g2, g3. split; [reflexivity|].
  split; [congruence|]. split.
  { rewrite R3, R2, R1, R0, !map_map. reflexivity. }
  split.
  { intros r c. destruct (binds (date_col b) c) eqn:Eb; [now apply T0 | now apply F0]. }
  split.
  { intros r c. rewrite <- !(@row_value_same_columns df df0 c) by exact C0.
    destruct (binds (sales_col b) c) eqn:Eb; [now apply T1 | now apply F1]. }
  split.
  { intros r c. rewrite <- !(@row_value_same_columns df df1 c) by exact C1'.
    destruct (binds (profit_col b) c) eqn:Eb; [now apply T2 | now apply F2]. }
  intros r c. rewrite <- !(@row_value_same_columns df df2 c) by exact C2'.
  destruct (binds (quantity_col b) c) eqn:Eb; [now apply T3 | now apply F3].
Qed.

Lemma clean_numeric_cell_is_number (c : cell) :
  is_number (clean_numeric_cell c) = true.
Proof.
  destruct (clean_numeric_cell_number c) as (x & ->). reflexivity.
Qed.

End CleanFacts.

(** X6: the cleaning stage.  When the bound date and numeric columns are
    headers of the table, cleaning returns a table with the same headers
    and as many rows; every column bound to the sales, profit or quantity
    role then holds numbers only; the date column holds timestamps or
    nulls only, unless a numeric role is bound to the same header; and a
    column bound to none of the four roles reads as before. *)
Theorem cleaning_types_columns :
  forall (P : Pandas) (b : Binding) (df : DataFrame),
    has_header df (date_col b) -> has_header df (sales_col b) ->
    has_header df (profit_col b) -> has_header df (quantity_col b) ->
    exists df',
      clean b df = Ok df'
      /\ columns df' = columns df
      /\ List.length (rows df') = List.length (rows df)
      /\ (forall c,
            binds (sales_col b) c || binds (profit_col b) c
            || binds (quantity_col b) c = true ->
            forall r, In r (rows df') -> is_number (row_value df' c r) = true)
      /\ (forall c,
            binds (date_col b) c = true ->
            binds (sales_col b) c || binds (profit_col b) c
            || binds (quantity_col b) c = false ->
            forall r, In r (rows df') -> datetime_cell (row_value df' c r) = true)
      /\ (forall c,
            In c (columns df) ->
            binds (date_col b) c = false ->
            binds (sales_col b) c || binds (profit_col b) c
            || binds (quantity_col b) c = false ->
            get_column df' c = get_column df c).
Proof.
  intros P b df Hd Hs Hp Hq.
  destruct (@clean_rows P b df Hd Hs Hp Hq)
    as (df' & g0 & g1 & g2 & g3 & E & Hcols & Hrows & H0 & H1 & H2 & H3).
  exists df'. split; [exact E|]. split; [exact Hcols|]. split.
  { now rewrite Hrows, length_map. }
  assert (Hrow : forall c r, In r (rows df') ->
            exists r0, row_value df' c r
                       = row_value df c (g3 (g2 (g1 (g0 r0))))).
  { intros c r Hr. rewrite Hrows in Hr. apply in_map_iff in Hr.
    destruct Hr as (r0 & <- & _). exists r0.
    now apply row_value_same_columns. }
  split; [|split].
  - intros c Hb r Hr. destruct (Hrow c r Hr) as (r0 & ->).
    rewrite H3, H2, H1.
    destruct (binds (sales_col b) c), (binds (profit_col b) c),
      (binds (quantity_col b) c); try discriminate;
      apply clean_numeric_cell_is_number.
  - intros c Hb Hn r Hr. destruct (Hrow c r Hr) as (r0 & ->).
    rewrite H3, H2, H1, H0, Hb.
    destruct (binds (sales_col b) c), (binds (profit_col b) c),
      (binds (quantity_col b) c); try discriminate.
    apply to_datetime_coerce_typed.
  - intros c Hc Hb Hn.
    rewrite (@get_column_map df df' (fun r => g3 (g2 (g1 (g0 r)))) c Hcols Hrows Hc).
    rewrite (get_column_row_value df c Hc). f_equal.
    apply map_ext. intros r. rewrite H3, H2, H1, H0, Hb.
    destruct (binds (sales_col b) c), (binds (profit_col b) c),
      (binds (quantity_col b) c); try discriminate. reflexivity.
Qed.

(** Cleaning the table of the sample file as the reader delivers it. *)
Lemma cleaning_types_columns_witness :
  exists df',
    @clean reference_pandas sample_binding
      raw_sample_frame = Ok df'
    /\ columns df' = ["Order Date"; "Sales"; "Region"]%string
    /\ List.length (rows df') = 3%nat
    /\ (forall c,
          binds (sales_col sample_binding) c || binds (profit_col sample_binding) c
          || binds (quantity_col sample_binding) c = true ->
          forall r, In r (rows df') -> is_number (row_value df' c r) = true)
    /\ (forall c,
          binds (date_col sample_binding) c = true ->
          binds (sales_col sample_binding) c || binds (profit_col sample_binding) c
          || binds (quantity_col sample_binding) c = false ->
          forall r, In r (rows df') -> datetime_cell (row_value df' c r) = true)
    /\ (forall c,
          In c ["Order Date"; "Sales"; "Region"]%string ->
          binds (date_col sample_binding) c = false ->
          binds (sales_col sample_binding) c || binds (profit_col sample_binding) c
          || binds (quantity_col sample_binding) c = false ->
          get_column df' c
          = get_column
              raw_sample_frame c).
Proof.
  apply (@cleaning_types_columns reference_pandas sample_binding
           raw_sample_frame);
    intros c Hc Ht; simpl in Hc; inversion Hc; simpl; auto.
Defined.

(** ** Selecting every option *)

Section OptionFacts.

Lemma lex_eq (c k : comparison) : lex c k = Eq <-> c = Eq /\ k = Eq.
Proof.
  destruct c; simpl; split; try tauto; try discriminate;
    intros [H _]; discriminate.
Qed.

Lemma ts_eqb_eq (a b : Timestamp) : ts_eqb a b = true <-> a = b.
Proof.
  unfold ts_eqb. split.
  - destruct (ts_compare a b) eqn:E; try discriminate. intros _.
    unfold ts_compare in E. rewrite !lex_eq, !Z.compare_eq_iff in E.
    destruct a, b. simpl in E. destruct E as (-> & -> & -> & ->). reflexivity.
  - intros ->. unfold ts_compare. now rewrite !Z.compare_refl.
Qed.

Lemma cell_eqb_refl (c : cell) : cell_eqb c c = true.
Proof.
  destruct c; simpl; auto.
  - apply String.eqb_refl.
  - apply Qeq_bool_refl.
  - now apply ts_eqb_eq.
Qed.

Lemma cell_eqb_trans (a b c : cell) :
  cell_eqb a b = true -> cell_eqb b c = true -> cell_eqb a c = true.
Proof.
  destruct a, b, c; simpl; try discriminate; auto.
  - rewrite !String.eqb_eq. congruence.
  - apply Qeq_bool_trans.
  - rewrite !ts_eqb_eq. congruence.
Qed.

(** Every value of a series is among its distinct values. *)
Lemma unique_covers (series : list cell) :
  forall v, In v series -> existsb (cell_eqb v) (unique series) = true.
Proof.
  induction series as [|c rest IH]; intros v Hv; [destruct Hv|].
  cbn [unique existsb].
  destruct (cell_eqb v c) eqn:Evc; [reflexivity|]. cbn [orb].
  destruct Hv as [->|Hv]; [now rewrite cell_eqb_refl in Evc|].
  specialize (IH v Hv). apply existsb_exists in IH.
  destruct IH as (x & Hx & Hvx).
  apply existsb_exists. exists x. split; [|exact Hvx].
  apply filter_In. split; [exact Hx|].
  apply negb_true_iff. apply not_true_iff_false. intros Hxc.
  rewrite (cell_eqb_trans _ _ _ Hvx Hxc) in Evc. discriminate.
Qed.

End OptionFacts.

(** X7: selecting every option is no filter.  The options of a sidebar
    filter are the distinct values of its column; with all of them
    selected the filter keeps every row, in order. *)
Theorem selecting_all_options_keeps_all_rows :
  forall (df : DataFrame) (c : string) (series : list cell),
    get_column df c = Ok series -> truthy (Some c) = true ->
    exists df',
      filter_isin (unique series) (Some c) df = Ok df'
      /\ columns df' = columns df
      /\ rows df' = rows df.
Proof.
  intros df c series Hget Ht.
  assert (Hc : In c (columns df)).
  { unfold get_column in Hget.
    destruct (column_index c (columns df)) eqn:E; [|discriminate].
    eapply column_index_some; eauto. }
  rewrite (get_column_row_value df c Hc) in Hget. inversion Hget; subst series.
  destruct (@filter_isin_spec (unique (map (row_value df c) (rows df)))
              (Some c) df) as (df' & E & Hcols & Hrows).
  { intros c' Hc' _. inversion Hc'; subst. exact Hc. }
  exists df'. split; [exact E|]. split; [exact Hcols|].
  rewrite Hrows. apply forallb_filter_id. apply forallb_forall.
  intros r Hr. unfold keeps. rewrite Ht.
  destruct (nonempty (unique (map (row_value df c) (rows df)))); [|reflexivity].
  cbn [andb]. apply unique_covers. now apply in_map.
Qed.

(** All regions of the sample table selected. *)
Lemma selecting_all_options_keeps_all_rows_witness :
  exists df',
    filter_isin (unique [CStr "East"; CStr "West"; CStr "East"])
      (Some "Region"%string) sample_frame = Ok df'
    /\ columns df' = columns sample_frame
    /\ rows df' = rows sample_frame.
Proof.
  apply (@selecting_all_options_keeps_all_rows sample_frame "Region"%string
           [CStr "East"; CStr "West"; CStr "East"]); reflexivity.
Defined.

(** ** The default date range *)

Section DateRangeFacts.







End DateRangeFacts.



(** ** The page from the metrics on *)

Section PresentFacts.
Context {P : Pandas}.

Lemma then_return (A B : Type) (l : list element) (a : A) (k : A -> script B) :
  then_ (l, Return a) k = (l ++ fst (k a), snd (k a)).
Proof.
  reflexivity.
Qed.

Lemma kpi_returns (col : option string) (df : DataFrame) :
  has_header df col -> exists q, kpi col df = Ok q.
Proof.
  intros Hh. unfold kpi. destruct col as [c|]; [|eauto].
  destruct (truthy (Some c)) eqn:Ht; [|eauto].
  rewrite (get_column_row_value df c (Hh c eq_refl Ht)). simpl. eauto.
Qed.

Lemma chart_if_returns (roles : list (option string)) (title : string) :
  exists l, chart_if roles title = (l, Return tt).
Proof.
  unfold chart_if. destruct (forallb truthy roles); eexists; reflexivity.
Qed.

(** The "Sales Over Time" computation returns on a datetime column, and
    leaves the table with the key column written into it. *)
Lemma sales_over_time_returns (dc sc : string) (df : DataFrame) :
  In dc (columns df) -> In sc (columns df) -> datetime_typed df dc ->
  exists time_df,
    sales_over_time dc sc df
    = Ok (set_column df "Month_Year"
            (map (fun r => CStr (cell_month_key (row_value df dc r))) (rows df)),
          time_df).
Proof.
  intros Hdc Hsc Htyped. unfold sales_over_time.
  rewrite (get_column_row_value df dc Hdc). simpl.
  rewrite (@mapM_total _ _ period_month_str (fun c => CStr (cell_month_key c))).
  2:{ intros c Hc. apply in_map_iff in Hc. destruct Hc as (r & <- & Hr).
      specialize (Htyped r Hr).
      destruct (row_value df dc r); try discriminate; reflexivity. }
  simpl. rewrite map_map.
  destruct (@set_column_read
              (fun r => CStr (cell_month_key (row_value df dc r)))
              "Month_Year"%string df) as [Hkey Hother].
  unfold groupby_sum_frame. rewrite Hkey. simpl.
  destruct (string_dec sc "Month_Year") as [->|Hne].
  - rewrite Hkey. simpl. eexists. reflexivity.
  - rewrite (Hother sc Hne Hsc). simpl. eexists. reflexivity.
Qed.

(** The block either is skipped and hands the table on, or runs and hands
    on the table with the key column. *)
Lemma time_block_returns (b : Binding) (df : DataFrame) :
  has_header df (date_col b) -> has_header df (sales_col b) ->
  (forall dc, binds (date_col b) dc = true -> truthy (sales_col b) = true ->
              datetime_typed df dc) ->
  exists l X,
    time_block b df = (l, Return X)
    /\ (truthy (date_col b) && truthy (sales_col b) = false -> X = df)
    /\ (forall dc, binds (date_col b) dc = true -> truthy (sales_col b) = true ->
          X = set_column df "Month_Year"
                (map (fun r => CStr (cell_month_key (row_value df dc r)))
                     (rows df))).
Proof.
  intros Hd Hs Htyped. unfold time_block.
  destruct (date_col b) as [dc|] eqn:Ed.
  - destruct (sales_col b) as [sc|] eqn:Es.
    + destruct (truthy (Some dc)) eqn:Td; cbn [andb].
      * destruct (truthy (Some sc)) eqn:Ts.
        -- assert (Hb : binds (Some dc) dc = true)
             by (apply binds_true; auto).
           destruct (@sales_over_time_returns dc sc df
                       (Hd dc eq_refl Td) (Hs sc eq_refl Ts)
                       (Htyped dc Hb eq_refl)) as (time_df & E).
           rewrite E. eexists. eexists. split; [reflexivity|].
           split; [discriminate|].
           intros dc' Hb' _. apply binds_true in Hb'. destruct Hb' as [Hb' _].
           inversion Hb'; subst. reflexivity.
        -- exists [], df. split; [reflexivity|]. split; [reflexivity|].
           intros dc' _ Hf. discriminate.
      * exists [], df. split; [reflexivity|]. split; [reflexivity|].
        intros dc' Hb' _. apply binds_true in Hb'. destruct Hb' as [_ Hb'].
        congruence.
    + exists [], df. split; [reflexivity|].
      split; [reflexivity|]. intros dc' _ Hf. discriminate.
  - exists [], df. split; [reflexivity|].
    split; [reflexivity|]. intros dc' Hb'. discriminate.
Qed.

End PresentFacts.

(** X9: the download and the table view show one and the same table.
    When the bound date and numeric columns are headers of the filtered
    table and the date column is of datetime type, the script runs to its
    end (drawing a chart is taken not to raise), and the page ends with
    the download button followed by the
    table view, both built from the table the "Sales Over Time" block
    hands on: the filtered table itself when the date or the sales role
    is unbound, and otherwise the filtered table with the column
    "Month_Year" written into it. *)
Theorem view_and_download_agree :
  forall (P : Pandas) (b : Binding) (fdf : DataFrame),
    has_header fdf (date_col b) -> has_header fdf (sales_col b) ->
    has_header fdf (profit_col b) -> has_header fdf (quantity_col b) ->
    (forall dc, binds (date_col b) dc = true -> truthy (sales_col b) = true ->
                datetime_typed fdf dc) ->
    exists pre X,
      present b fdf
      = (pre ++ [DownloadButton "Download Filtered Data"
                   (encode_utf8 (to_csv X)) "Filtered_Data.csv" "text/csv";
                 DataTable X],
         Return tt)
      /\ snd (time_block b fdf) = Return X
      /\ (truthy (date_col b) && truthy (sales_col b) = false -> X = fdf)
      /\ (forall dc, binds (date_col b) dc = true -> truthy (sales_col b) = true ->
            X = set_column fdf "Month_Year"
                  (map (fun r => CStr (cell_month_key (row_value fdf dc r)))
                       (rows fdf))).
Proof.
  intros P b fdf Hd Hs Hp Hq Htyped.
  destruct (@kpi_returns (sales_col b) fdf Hs) as (q1 & E1).
  destruct (@kpi_returns (profit_col b) fdf Hp) as (q2 & E2).
  destruct (@kpi_returns (quantity_col b) fdf Hq) as (q3 & E3).
  destruct (@time_block_returns b fdf Hd Hs Htyped) as (lt & X & Et & Hskip & Hrun).
  destruct (chart_if_returns [retailer_col b; sales_col b]
              "Total Sales by Retailer") as (l1 & C1).
  destruct (chart_if_returns [region_col b; city_col b; sales_col b]
              "Total Sales by Region and City in Treemap") as (l2 & C2).
  destruct (chart_if_returns [state_col b; sales_col b; quantity_col b]
              "Total Sales and Units Sold by State") as (l3 & C3).
  destruct (chart_if_returns [retailer_col b; sales_col b]
              "Retailer wise Sales") as (l4 & C4).
  destruct (chart_if_returns [product_col b; sales_col b]
              "Product wise Sales") as (l5 & C5).
  exists ([Metric "Total Sales" q1; Metric "Total Profit" q2;
           Metric "Units Sold" q3;
           Metric "Total Orders" (inject_Z (Z.of_nat (List.length (rows fdf))))]
          ++ l1 ++ lt ++ l2 ++ l3 ++ l4 ++ l5), X.
  split; [|split; [now rewrite Et | split; assumption]].
  unfold present. rewrite E1, E2, E3, C1, C2, C3, C4, C5, Et.
  unfold lift, ret, render, download_block.
  rewrite !then_return. cbn [fst snd].
  unfold render. rewrite then_return. cbn [fst snd app].
  rewrite <- !app_assoc. reflexivity.
Qed.

(** The page for the sample table under the sample binding. *)
Lemma view_and_download_agree_witness :
  exists pre X,
    @present reference_pandas sample_binding sample_frame
    = (pre ++ [DownloadButton "Download Filtered Data"
                 (encode_utf8 (@to_csv reference_pandas X))
                 "Filtered_Data.csv" "text/csv";
               DataTable X],
       Return tt)
    /\ snd (time_block sample_binding sample_frame) = Return X
    /\ (truthy (date_col sample_binding) && truthy (sales_col sample_binding)
        = false -> X = sample_frame)
    /\ (forall dc, binds (date_col sample_binding) dc = true ->
                   truthy (sales_col sample_binding) = true ->
          X = set_column sample_frame "Month_Year"
                (map (fun r => CStr (cell_month_key (row_value sample_frame dc r)))
                     (rows sample_frame))).
Proof.
  apply (@view_and_download_agree reference_pandas sample_binding sample_frame).
  - intros c Hc Ht. inversion Hc. simpl. auto.
  - intros c Hc Ht. inversion Hc. simpl. auto.
  - intros c Hc Ht. inversion Hc.
  - intros c Hc Ht. inversion Hc.
  - intros dc Hb _ r Hr. apply binds_true in Hb. destruct Hb as [Hb _].
    inversion Hb; subst dc. simpl in Hr.
    destruct Hr as [<-|[<-|[<-|[]]]]; reflexivity.
Defined.

(** ** Ties between headers *)

Section FirstMaxFacts.
Variable A : Type.
Variable key : A -> Q.

(** The loop of [max] either keeps its first item, or moves to an item
    that is strictly greater than every item before it. *)
Lemma max_loop_first (l : list A) :
  forall best,
    (max_loop key best l = best /\ forall x, In x l -> key x <= key best)
    \/ (exists l1 l2,
          l = l1 ++ max_loop key best l :: l2
          /\ key best < key (max_loop key best l)
          /\ forall x, In x l1 -> key x < key (max_loop key best l)).
Proof.
  induction l as [|y l IH]; intros best; cbn [max_loop].
  - left. split; [reflexivity | intros x []].
  - destruct (Qgt_bool (key y) (key best)) eqn:E.
    + apply Qgt_bool_true in E.
      destruct (IH y) as [[Hr Hle]|(l1 & l2 & Hl & Hlt & Hbefore)].
      * right. exists [], l. rewrite Hr.
        split; [reflexivity|]. split; [exact E | intros x []].
      * right. exists (y :: l1), l2.
        split; [simpl; f_equal; exact Hl|].
        split; [eapply Qlt_trans; eauto|].
        intros x [Hx|Hx]; [subst x; exact Hlt | auto].
    + apply Qgt_bool_false in E.
      destruct (IH best) as [[Hr Hle]|(l1 & l2 & Hl & Hlt & Hbefore)].
      * left. split; [exact Hr|].
        intros x [Hx|Hx]; [subst x; exact E | auto].
      * right. exists (y :: l1), l2.
        split; [simpl; f_equal; exact Hl|]. split; [exact Hlt|].
        intros x [Hx|Hx]; [subst x; eapply Qle_lt_trans; eauto | auto].
Qed.

(** [max] returns the first of the greatest items. *)
Lemma py_max_key_first (l : list A) (b : A) :
  py_max_key key l = Ok b ->
  exists l1 l2, l = l1 ++ b :: l2 /\ forall x, In x l1 -> key x < key b.
Proof.
  destruct l as [|x l]; [discriminate|]. simpl. intros H.
  inversion H as [Hb]. clear H.
  destruct (max_loop_first l x) as [[Hr _]|(l1 & l2 & Hl & Hlt & Hbefore)].
  - exists [], l. rewrite Hr. split; [reflexivity | intros y []].
  - exists (x :: l1), l2. split; [simpl; f_equal; exact Hl|].
    intros y [Hy|Hy]; [subst y; exact Hlt | auto].
Qed.

End FirstMaxFacts.

Section DictOrderFacts.
Variable V : Type.

Lemma dict_set_nodup (d : dict V) (k : string) (v : V) :
  NoDup (map fst d) -> NoDup (map fst (dict_set d k v)).
Proof.
  induction d as [|[k0 v0] d IH]; simpl; intros Hn.
  - constructor; [intros [] | constructor].
  - apply NoDup_cons_iff in Hn. destruct Hn as [Hnot Hn].
    destruct (String.eqb_spec k0 k) as [->|Hne]; simpl.
    + constructor; assumption.
    + constructor; [|now apply IH].
      rewrite dict_set_keys. intros [E|Hin]; [congruence | contradiction].
Qed.

(** A new key goes to the end. *)
Lemma dict_set_new (d : dict V) (k : string) (v : V) :
  ~ In k (map fst d) -> dict_set d k v = d ++ [(k, v)].
Proof.
  induction d as [|[k0 v0] d IH]; simpl; intros Hn; [reflexivity|].
  destruct (String.eqb_spec k0 k) as [->|Hne].
  - exfalso. apply Hn. now left.
  - rewrite IH; [reflexivity|]. intros Hin. apply Hn. now right.
Qed.

(** An assignment moves no key: an entry keeps the keys before it. *)
Lemma dict_set_split (l1 : dict V) (h : string) (m : V) (l2 : dict V)
    (k : string) (v : V) :
  exists l1' m' l2',
    dict_set (l1 ++ (h, m) :: l2) k v = l1' ++ (h, m') :: l2'
    /\ map fst l1' = map fst l1.
Proof.
  induction l1 as [|[k0 v0] l1 IH]; simpl.
  - destruct (String.eqb_spec h k) as [E|Hne].
    + exists [], v, l2. auto.
    + exists [], m, (dict_set l2 k v). auto.
  - destruct (String.eqb_spec k0 k) as [E|Hne].
    + exists ((k0, v) :: l1), m, l2. auto.
    + destruct IH as (l1' & m' & l2' & E & Hk).
      exists ((k0, v0) :: l1'), m', l2'. rewrite E. simpl. now rewrite Hk.
Qed.

(** With distinct keys an entry has one place. *)
Lemma split_unique (l1 : dict V) :
  forall (a1 : dict V) (x y : string * V) (l2 a2 : dict V),
    NoDup (map fst (l1 ++ x :: l2)) ->
    l1 ++ x :: l2 = a1 ++ y :: a2 -> fst x = fst y -> l1 = a1.
Proof.
  induction l1 as [|z l1 IH]; intros a1 x y l2 a2 Hn E Hxy.
  - destruct a1 as [|z a1]; [reflexivity|]. exfalso.
    simpl in E. inversion E; subst. simpl in Hn.
    apply NoDup_cons_iff in Hn. destruct Hn as [Hnot _]. apply Hnot.
    rewrite Hxy, map_app. apply in_or_app. right. now left.
  - destruct a1 as [|z' a1].
    + exfalso. simpl in E. inversion E; subst. simpl in Hn.
      apply NoDup_cons_iff in Hn. destruct Hn as [Hnot _]. apply Hnot.
      rewrite <- Hxy, map_app. apply in_or_app. right. now left.
    + simpl in E. inversion E; subst. f_equal.
      simpl in Hn. apply NoDup_cons_iff in Hn. destruct Hn as [_ Hn].
      eapply IH; eauto.
Qed.

End DictOrderFacts.

Section TieFacts.
Context {B : Builtins} {F : RapidFuzz}.

Lemma fill_matches_nodup (C H : list string) :
  forall d d', fill_matches C H d = Ok d' ->
               NoDup (map fst d) -> NoDup (map fst d').
Proof.
  induction H as [|col H IH]; simpl; intros d d' E Hn.
  - inversion E; subst. exact Hn.
  - destruct (column_score C col) as [m|]; [|discriminate]. simpl in E.
    eapply IH; [exact E|]. now apply dict_set_nodup.
Qed.

(** The loop moves no key of [matches]. *)
Lemma fill_matches_keeps (C H : list string) :
  forall (l1 : dict Q) (h : string) (m : Q) (l2 d' : dict Q),
    fill_matches C H (l1 ++ (h, m) :: l2) = Ok d' ->
    exists l1' m' l2', d' = l1' ++ (h, m') :: l2' /\ map fst l1' = map fst l1.
Proof.
  induction H as [|col H IH]; simpl; intros l1 h m l2 d' E.
  - inversion E; subst. exists l1, m, l2. auto.
  - destruct (column_score C col) as [s|]; [|discriminate]. simpl in E.
    destruct (@dict_set_split Q l1 h m l2 col s) as (l1' & m' & l2' & Es & Hk).
    rewrite Es in E.
    destruct (IH _ _ _ _ _ E) as (l1'' & m'' & l2'' & Ed & Hk').
    exists l1'', m'', l2''. split; [exact Ed | congruence].
Qed.

(** The keys of [matches] come in the order in which the headers are
    first met: a header stands after the headers met before it. *)
Lemma fill_matches_before (C : list string) (pre : list string) (h : string)
    (post : list string) :
  forall d d',
    fill_matches C (pre ++ h :: post) d = Ok d' ->
    ~ In h pre -> ~ In h (map fst d) ->
    exists l1 m l2,
      d' = l1 ++ (h, m) :: l2
      /\ (forall h', In h' pre -> In h' (map fst l1))
      /\ (forall k, In k (map fst d) -> In k (map fst l1)).
Proof.
  induction pre as [|p pre IH]; simpl; intros d d' E Hpre Hd.
  - destruct (column_score C h) as [m|]; [|discriminate]. simpl in E.
    rewrite (@dict_set_new Q d h m Hd) in E.
    destruct (@fill_matches_keeps C post d h m [] d' E)
      as (l1 & m' & l2 & Ed & Hk).
    exists l1, m', l2. split; [exact Ed|]. split; [intros h' []|].
    intros k Hk'. now rewrite Hk.
  - destruct (column_score C p) as [m|]; [|discriminate]. simpl in E.
    destruct (IH _ _ E) as (l1 & m' & l2 & Ed & Hbefore & Hkeys).
    + intros Hin. apply Hpre. now right.
    + rewrite dict_set_keys. intros [Heq|Hin]; [|contradiction].
      apply Hpre. left. congruence.
    + exists l1, m', l2. split; [exact Ed|]. split.
      * intros h' [Hh'|Hh']; [|now apply Hbefore].
        subst h'. apply Hkeys. rewrite dict_set_keys. now left.
      * intros k Hk. apply Hkeys. rewrite dict_set_keys. now right.
Qed.

End TieFacts.

(** X10: among headers with the same best score the first one wins.
    When the resolver binds a header, that header scores above 60,
    strictly more than every header that stands before its first
    occurrence in the list, and at least as much as every header after
    it. *)
Theorem find_best_column_prefers_first :
  forall (B : Builtins) (F : RapidFuzz) (C pre : list string) (h : string)
         (post : list string),
    ~ In h pre ->
    find_best_column C (pre ++ h :: post) = Ok (Some h) ->
    exists c,
      In c C /\ 60 < similarity h c
      /\ (forall h' c', In h' pre -> In c' C ->
                        similarity h' c' < similarity h c)
      /\ (forall h' c', In h' post -> In c' C ->
                        similarity h' c' <= similarity h c).
Proof.
  intros B F C pre h post Hpre Hfind.
  assert (HC : C <> []).
  { intros ->. destruct pre; discriminate. }
  unfold find_best_column in Hfind.
  destruct (@fill_matches_spec B F C HC (pre ++ h :: post) [])
    as (d & Ef & Hsc & Hkeys).
  { intros k v []. }
  rewrite Ef in Hfind. simpl in Hfind.
  destruct (py_max_key snd d) as [best|] eqn:Em; [|discriminate].
  simpl in Hfind.
  destruct (dict_item d (fst best)) as [score|] eqn:Ei; [|discriminate].
  simpl in Hfind.
  destruct (Qgt_bool score 60) eqn:E60; [|discriminate].
  inversion Hfind as [Hbest]. clear Hfind.
  destruct (@fill_matches_before B F C pre h post [] d Ef Hpre)
    as (l1 & m & l2 & Ed & Hbefore & _).
  { intros []. }
  assert (Hn : NoDup (map fst d)).
  { eapply fill_matches_nodup; [exact Ef | constructor]. }
  destruct (@py_max_key_first _ (@snd string Q) d best Em)
    as (a1 & a2 & Ea & Hless).
  assert (Hl : l1 = a1).
  { rewrite Ed in Hn. eapply split_unique; [exact Hn | | ].
    - rewrite <- Ed. exact Ea.
    - simpl. now rewrite Hbest. }
  subst a1. rewrite Ed in Ea. apply app_inv_head in Ea.
  inversion Ea as [[Hm Hl2]]. clear Ea. subst best. cbn [fst snd] in *.
  assert (Hin : In (h, m) d).
  { rewrite Ed. apply in_or_app. right. now left. }
  assert (Hscore : score = m).
  { unfold dict_item in Ei.
    destruct (dict_get d h) as [v|] eqn:Eg; [|discriminate].
    inversion Ei; subst v.
    assert (Hk : In h (map fst d)) by (apply in_map_iff; exists (h, m); auto).
    destruct (dict_get_in d h Hk) as (v & Hv & Hvin).
    rewrite Eg in Hv. inversion Hv; subst v.
    apply Hsc in Hvin. apply Hsc in Hin. congruence. }
  subst score.
  destruct (column_score_spec h HC) as (m0 & Hm0 & (c & Hc & Hmc) & _).
  rewrite (Hsc _ _ Hin) in Hm0.
  assert (Hmm : m = m0) by congruence.
  rewrite <- Hmm in Hmc. clear Hm0 Hmm m0.
  exists c. split; [exact Hc|]. split.
  { rewrite <- Hmc. now apply Qgt_bool_true. }
  assert (Hmax : forall x, In x d -> snd x <= m).
  { destruct (@py_max_key_spec _ (@snd string Q) d) as (b' & Eb & _ & Hle).
    - intros ->. destruct Hin.
    - rewrite Em in Eb. inversion Eb; subst b'.
      intros x Hx. now apply (Hle x). }
  split.
  - intros h' c' Hh' Hc'. rewrite <- Hmc.
    apply Hbefore in Hh'. apply in_map_iff in Hh'.
    destruct Hh' as ([k v] & Hk & Hkv). simpl in Hk. subst k.
    assert (Hv : In (h', v) d).
    { rewrite Ed. apply in_or_app. now left. }
    destruct (column_score_spec h' HC) as (m1 & Hm1 & _ & Hle).
    rewrite (Hsc _ _ Hv) in Hm1. inversion Hm1; subst m1.
    eapply Qle_lt_trans; [apply Hle, Hc'|].
    exact (Hless (h', v) Hkv).
  - intros h' c' Hh' Hc'. rewrite <- Hmc.
    assert (Hk : In h' (map fst d)).
    { apply Hkeys. right. apply in_or_app. right. now right. }
    destruct (dict_get_in d h' Hk) as (v & _ & Hv).
    destruct (column_score_spec h' HC) as (m1 & Hm1 & _ & Hle).
    rewrite (Hsc _ _ Hv) in Hm1. inversion Hm1; subst m1.
    eapply Qle_trans; [apply Hle, Hc' | apply (Hmax (h', v) Hv)].
Qed.

(** Two headers that differ in case only: the first is bound. *)
Lemma find_best_column_prefers_first_witness :
  exists c,
    In c ["Sales"%string]
    /\ 60 < @similarity latin1_builtins indel_rapidfuzz "Sales" c
    /\ (forall h' c', In h' ["Region"%string] -> In c' ["Sales"%string] ->
          @similarity latin1_builtins indel_rapidfuzz h' c'
          < @similarity latin1_builtins indel_rapidfuzz "Sales" c)
    /\ (forall h' c', In h' ["sales"%string] -> In c' ["Sales"%string] ->
          @similarity latin1_builtins indel_rapidfuzz h' c'
          <= @similarity latin1_builtins indel_rapidfuzz "Sales" c).
Proof.
  apply (@find_best_column_prefers_first latin1_builtins indel_rapidfuzz
           ["Sales"%string] ["Region"%string] "Sales"%string ["sales"%string]).
  - intros [E|[]]. discriminate.
  - vm_compute. reflexivity.
Defined.

(** ** The filter engine as a whole *)

Section EngineFacts.
Context {P : Pandas}.





End EngineFacts.


